(** * automation/fetch_access_token.py: a shallow embedding

    The script loads the Zerodha credentials from the environment, logs in
    through a headless browser, exchanges the request token for an access
    token through the KiteConnect SDK and posts the token to the backend,
    retrying on failure.

    Python strings are modelled as [string], one character per code point
    (code points below 256).  A Python dict with string keys is a [gmap]; the
    JSON payload, whose key order is the insertion order, is an association
    list.  Everything outside the script (environment, .env file, file system,
    browser, SDK, HTTP) is a field of [world]; the functions of the script
    are computations in a state and exception monad over [world] that log
    every outside call in [trace]. *)

From Stdlib Require Import ZArith Ascii String List Bool Lia DecimalString.
From stdpp Require Import gmap strings.
Import ListNotations.

Local Open Scope string_scope.
Local Open Scope Z_scope.

(** ** Python values and strings *)

Module Py.

(** The values a session dictionary and the JSON payload hold; any other
    object is known by its [repr] and its truth value. *)
Inductive value :=
| VNone
| VBool (b : bool)
| VInt (z : Z)
| VStr (s : string)
| VObject (repr : string) (truth : bool).

(** Truth value testing, as [not x] and [if x] use it. *)
Definition truthy (v : value) : bool :=
  match v with
  | VNone => false
  | VBool b => b
  | VInt z => negb (z =? 0)
  | VStr s => negb (String.eqb s "")
  | VObject _ t => t
  end.

(** [str(n)] for an int. *)
Definition str_of_int (z : Z) : string := NilZero.string_of_int (Z.to_int z).

(** [str.isspace] on one character: the whitespace code points below 256
    are 9..13, 28..32, 133 and 160. *)
Definition isspace (c : ascii) : bool :=
  let n := nat_of_ascii c in
  ((9 <=? n)%nat && (n <=? 13)%nat) || ((28 <=? n)%nat && (n <=? 32)%nat)
  || (n =? 133)%nat || (n =? 160)%nat.

Fixpoint lstrip (s : string) : string :=
  match s with
  | EmptyString => EmptyString
  | String c s' => if isspace c then lstrip s' else s
  end.

Fixpoint rstrip (s : string) : string :=
  match s with
  | EmptyString => EmptyString
  | String c s' =>
      let r := rstrip s' in
      if String.eqb r "" && isspace c then EmptyString else String c r
  end.

(** [s.strip()] *)
Definition strip (s : string) : string := rstrip (lstrip s).

Fixpoint all_space (s : string) : bool :=
  match s with
  | EmptyString => true
  | String c s' => isspace c && all_space s'
  end.

(** [str.lower] on one character: below 256 the cased upper-case code
    points are 65..90, 192..214 and 216..222, each 32 below its lower
    case. *)
Definition lower_char (c : ascii) : ascii :=
  let n := nat_of_ascii c in
  if ((65 <=? n)%nat && (n <=? 90)%nat) || ((192 <=? n)%nat && (n <=? 214)%nat)
     || ((216 <=? n)%nat && (n <=? 222)%nat)
  then ascii_of_nat (n + 32) else c.

(** [s.lower()] *)
Fixpoint lower (s : string) : string :=
  match s with
  | EmptyString => EmptyString
  | String c s' => String (lower_char c) (lower s')
  end.

(** [sub in s] *)
Fixpoint contains (sub s : string) : bool :=
  String.prefix sub s ||
  match s with
  | EmptyString => false
  | String _ s' => contains sub s'
  end.

(** [s.split(sep)] for a non-empty [sep]: the separators are found from
    the left and do not overlap.  [skip] counts the characters of a
    separator still to jump over, [cur] is the piece being read, last
    character first. *)
Fixpoint split_go (sep : string) (skip : nat) (cur : list ascii) (s : string)
  : list string :=
  match s with
  | EmptyString => [string_of_list_ascii (rev cur)]
  | String c s' =>
      match skip with
      | S k => split_go sep k cur s'
      | O =>
          if String.prefix sep s
          then string_of_list_ascii (rev cur)
                 :: split_go sep (Nat.pred (String.length sep)) [] s'
          else split_go sep O (c :: cur) s'
      end
  end.

Definition split (sep s : string) : list string := split_go sep O [] s.

(** [repr] of a list of identifiers (strings that need no escaping). *)
Definition repr_name (s : string) : string := "'" ++ s ++ "'".

Fixpoint join (sep : string) (l : list string) : string :=
  match l with
  | [] => ""
  | [x] => x
  | x :: l' => x ++ sep ++ join sep l'
  end.

Definition repr_names (l : list string) : string :=
  "[" ++ join ", " (map repr_name l) ++ "]".

End Py.

(** ** Exceptions *)

(** [RequestException] stands for [requests.RequestException] and all its
    subclasses (ConnectionError, Timeout, ...); [kind] is the class name. *)
Inductive exn :=
| ValueError (msg : string)
| RuntimeError (msg : string)
| KeyError (key : string)
| TypeError (msg : string)
| OSError (msg : string)
| RequestException (kind msg : string)
| OtherError (kind msg : string).

Definition is_request_exception (e : exn) : bool :=
  match e with RequestException _ _ => true | _ => false end.

(** [str(exc)] *)
Definition exn_str (e : exn) : string :=
  match e with
  | ValueError m | RuntimeError m | TypeError m | OSError m => m
  | KeyError k => Py.repr_name k
  | RequestException _ m | OtherError _ m => m
  end.

(** ** HTTP responses *)

(** What the script reads of a [requests.Response]: the status code, the
    body text and the outcome of [response.json()], which is the decoded
    body (kept as the text [print] shows for it) or the exception raised
    for a body that is not JSON. *)
Record Response := {
  status_code : Z;
  text : string;
  json : exn + string
}.

(** [Response.ok]: [raise_for_status] raises for 400 <= status < 600 and
    [ok] is true when it does not raise. *)
Definition ok (r : Response) : bool :=
  negb ((400 <=? status_code r) && (status_code r <? 600)).

Inductive post_outcome :=
| Returns (r : Response)
| Raises (e : exn).

(** ** The outside world *)

Definition payload_t := list (string * Py.value).

Inductive event :=
| EvPrint (line : string)
| EvPost (url : string) (body : payload_t) (timeout : Z)
| EvSleep (seconds : Z)
| EvChromeStart
| EvLoginForm (url user_id password : string)
| EvTotpForm (code : string)
| EvChromeQuit
| EvGenerateSession (api_key request_token api_secret : string)
| EvOpen (path : string)
| EvWrite (path data : string).

Record world := {
  environ : gmap string string;           (* os.environ *)
  dotenv : gmap string string;            (* the entries of the .env file *)
  files : gmap string string;             (* text files by path *)
  writable : string -> bool;              (* can open(path, "w") succeed *)
  http : nat -> post_outcome;             (* outcomes of the coming POSTs *)
  chrome : option exn;                    (* webdriver.Chrome(...) failing *)
  login_form : string -> string -> string -> option exn;
  totp_now : string -> exn + string;      (* pyotp.TOTP(secret).now() *)
  totp_form : string -> exn + string;     (* the URL after the TOTP form *)
  kite_session : string -> string -> string -> exn + gmap string Py.value;
  trace : list event
}.

Definition set_environ (e : gmap string string) (w : world) : world :=
  {| environ := e; dotenv := dotenv w; files := files w;
     writable := writable w; http := http w; chrome := chrome w;
     login_form := login_form w; totp_now := totp_now w;
     totp_form := totp_form w; kite_session := kite_session w;
     trace := trace w |}.

Definition set_files (f : gmap string string) (w : world) : world :=
  {| environ := environ w; dotenv := dotenv w; files := f;
     writable := writable w; http := http w; chrome := chrome w;
     login_form := login_form w; totp_now := totp_now w;
     totp_form := totp_form w; kite_session := kite_session w;
     trace := trace w |}.

Definition set_http (h : nat -> post_outcome) (w : world) : world :=
  {| environ := environ w; dotenv := dotenv w; files := files w;
     writable := writable w; http := h; chrome := chrome w;
     login_form := login_form w; totp_now := totp_now w;
     totp_form := totp_form w; kite_session := kite_session w;
     trace := trace w |}.

Definition log (e : event) (w : world) : world :=
  {| environ := environ w; dotenv := dotenv w; files := files w;
     writable := writable w; http := http w; chrome := chrome w;
     login_form := login_form w; totp_now := totp_now w;
     totp_form := totp_form w; kite_session := kite_session w;
     trace := trace w ++ [e] |}.

(** ** The monad of the script: state and exceptions *)

Inductive result (A : Type) :=
| Done (a : A)
| Raised (e : exn).
Arguments Done {A} a.
Arguments Raised {A} e.

Definition M (A : Type) : Type := world -> result A * world.

Definition ret {A} (a : A) : M A := fun w => (Done a, w).

Definition raise {A} (e : exn) : M A := fun w => (Raised e, w).

Definition bind {A B} (m : M A) (k : A -> M B) : M B :=
  fun w =>
    match m w with
    | (Done a, w') => k a w'
    | (Raised e, w') => (Raised e, w')
    end.

Notation "'let*' x ':=' m 'in' k" := (bind m (fun x => k))
  (at level 10, x name, k at level 200).
Notation "m ;;; k" := (bind m (fun _ => k))
  (at level 100, right associativity).

(** [try: m except C as exc: h exc], where [catches] tells the instances
    of the class [C]. *)
Definition try_except {A} (m : M A) (catches : exn -> bool) (h : exn -> M A)
  : M A :=
  fun w =>
    match m w with
    | (Raised e, w') => if catches e then h e w' else (Raised e, w')
    | r => r
    end.

(** [try: m finally: f] *)
Definition try_finally {A} (m : M A) (f : M unit) : M A :=
  fun w =>
    match m w with
    | (Done a, w') =>
        match f w' with
        | (Done _, w'') => (Done a, w'')
        | (Raised e, w'') => (Raised e, w'')
        end
    | (Raised e, w') =>
        match f w' with
        | (Done _, w'') => (Raised e, w'')
        | (Raised e', w'') => (Raised e', w'')
        end
    end.

Definition emit (e : event) : M unit := fun w => (Done tt, log e w).

Definition lift_sum {A} (r : exn + A) : M A :=
  match r with inl e => raise e | inr a => ret a end.

(** [print(line)] *)
Definition print (line : string) : M unit := emit (EvPrint line).

(** The longest sleep, in seconds, that [time.sleep] accepts for an int:
    the length is held in nanoseconds in 64 signed bits. *)
Definition max_sleep : Z := 9223372036.

(** [time.sleep(secs)] for an int: a negative length is a [ValueError], a
    length beyond [max_sleep] an [OverflowError]. *)
Definition sleep (secs : Z) : M unit :=
  if secs <? 0 then raise (ValueError "sleep length must be non-negative")
  else if max_sleep <? secs then
    raise (OtherError "OverflowError"
                      "timestamp too large to convert to C _PyTime_t")
  else emit (EvSleep secs).

(** [requests.post(url, json=body, timeout=timeout)]: the call is logged and
    the next outcome of the world is consumed. *)
Definition requests_post (url : string) (body : payload_t) (timeout : Z)
  : M Response :=
  fun w =>
    let w' := set_http (fun n => http w (S n)) (log (EvPost url body timeout) w) in
    match http w O with
    | Returns r => (Done r, w')
    | Raises e => (Raised e, w')
    end.

Definition get_environ : M (gmap string string) := fun w => (Done (environ w), w).

(** [load_dotenv()]: the entries of the .env file are added to the process
    environment; a variable that is already set keeps its value. *)
Definition load_dotenv : M unit :=
  fun w => (Done tt, set_environ (environ w ∪ dotenv w) w).

(** [os.getenv(key, default)] *)
Definition getenv (env : gmap string string) (key dflt : string) : string :=
  default dflt (env !! key).

(** [a or b] on strings *)
Definition str_or (a b : string) : string :=
  if String.eqb a "" then b else a.

(** [with open(path, "w", encoding="utf-8") as f: f.write(data)]: opening
    truncates the file, and [write] accepts a str only. *)
Definition write_text (path : string) (data : Py.value) : M unit :=
  emit (EvOpen path) ;;;
  fun w =>
    if writable w path then
      match data with
      | Py.VStr s =>
          (Done tt, set_files (<[path := s]> (files w)) (log (EvWrite path s) w))
      | _ => (Raised (TypeError "write() argument must be str"),
              set_files (<[path := ""]> (files w)) w)
      end
    else (Raised (OSError path), w).

(** ** The script *)

Definition KITE_LOGIN_URL (api_key : string) : string :=
  "https://kite.trade/connect/login" ++ "?api_key=" ++ api_key ++ "&v=3".

Definition DEFAULT_BACKEND_UPDATE_URL : string :=
  "https://web-production-de0bc.up.railway.app"
  ++ "/api/modules/auth/broker/token/update".

Record ZerodhaConfig := {
  api_key : string;
  api_secret : string;
  totp_secret : string;
  user_id : string;
  password : string;
  token_output_path : option string;
  backend_update_url : string;
  backend_source_label : string
}.

(** The record built on lines 64-73 of the script. *)
Definition config_of_env (env : gmap string string) : ZerodhaConfig :=
  {| api_key := Py.strip (getenv env "Z_API_KEY" "");
     api_secret := Py.strip (getenv env "Z_API_SECRET" "");
     totp_secret := Py.strip (getenv env "Z_TOTP_SECRET" "");
     user_id := Py.strip (getenv env "Z_USER_ID" "");
     password := Py.strip (getenv env "Z_PASSWORD" "");
     token_output_path :=
       (let p := Py.strip (getenv env "TOKEN_OUTPUT_PATH" "") in
        if String.eqb p "" then None else Some p);
     backend_update_url :=
       str_or (Py.strip (getenv env "BACKEND_UPDATE_URL" ""))
              DEFAULT_BACKEND_UPDATE_URL;
     backend_source_label :=
       str_or (getenv env "BACKEND_SOURCE_LABEL" "automation") "automation" |}.

(** [vars(cfg).items()]: the fields in declaration order; [None] is the
    Python [None]. *)
Definition vars (cfg : ZerodhaConfig) : list (string * option string) :=
  [ ("api_key", Some (api_key cfg));
    ("api_secret", Some (api_secret cfg));
    ("totp_secret", Some (totp_secret cfg));
    ("user_id", Some (user_id cfg));
    ("password", Some (password cfg));
    ("token_output_path", token_output_path cfg);
    ("backend_update_url", Some (backend_update_url cfg));
    ("backend_source_label", Some (backend_source_label cfg)) ].

(** [value in ("", None)] *)
Definition is_blank (value : option string) : bool :=
  match value with
  | None => true
  | Some s => String.eqb s ""
  end.

Definition exempt (name : string) : bool :=
  String.eqb name "token_output_path" || String.eqb name "backend_source_label".

Definition missing_fields (cfg : ZerodhaConfig) : list string :=
  map fst
    (List.filter (fun nv => is_blank (snd nv) && negb (exempt (fst nv)))
                 (vars cfg)).

Definition load_config : M ZerodhaConfig :=
  load_dotenv ;;;
  let* env := get_environ in
  let cfg := config_of_env env in
  let missing := missing_fields cfg in
  match missing with
  | _ :: _ =>
      raise (ValueError ("Missing required config values: "
                         ++ Py.repr_names missing))
  | [] => ret cfg
  end.

(** [generate_totp] *)
Definition generate_totp (secret : string) : M string :=
  fun w => lift_sum (totp_now w secret) w.

(** [selenium_driver]: the body runs between the start of the driver and
    [driver.quit()], which runs also when the body raises. *)
Definition selenium_driver {A} (body : M A) : M A :=
  emit EvChromeStart ;;;
  (fun w => match chrome w with
            | Some e => (Raised e, w)
            | None => (Done tt, w)
            end) ;;;
  try_finally body (emit EvChromeQuit).

(** The loop over [redirected_url.split("&")], lines 132-136. *)
Fixpoint find_request_token (parts : list string) : option string :=
  match parts with
  | [] => None
  | part :: rest =>
      if Py.contains "request_token=" part
      then Some (List.last (Py.split "request_token=" part) "")
      else find_request_token rest
  end.

(** [totp_form] gives the URL the browser is at once the TOTP form is
    submitted, where it stays: the [wait.until] of line 129 polls that URL,
    lower-cased, for "request_token=" and raises [TimeoutException] when it
    is not there; line 130 then reads the same URL. *)
Definition login_and_get_request_token (cfg : ZerodhaConfig) : M string :=
  let login_url := KITE_LOGIN_URL (api_key cfg) in
  selenium_driver
    ((* Step 1: user id + password *)
     emit (EvLoginForm login_url (user_id cfg) (password cfg)) ;;;
     (fun w => match login_form w login_url (user_id cfg) (password cfg) with
               | Some e => (Raised e, w)
               | None => (Done tt, w)
               end) ;;;
     (* Step 2: TOTP *)
     let* totp_code := generate_totp (totp_secret cfg) in
     emit (EvTotpForm totp_code) ;;;
     (* Step 3: wait for the redirect URL, then read it *)
     let* redirected_url := (fun w => lift_sum (totp_form w totp_code) w) in
     if Py.contains "request_token=" (Py.lower redirected_url) then
       match find_request_token (Py.split "&" redirected_url) with
       | Some (String c t) => ret (String c t)
       | _ => raise (RuntimeError "Unable to locate request_token in redirect URL")
       end
     else raise (OtherError "TimeoutException" "")).

(** [kite.generate_session(request_token, api_secret=...)] *)
Definition generate_session (key request_token secret : string)
  : M (gmap string Py.value) :=
  emit (EvGenerateSession key request_token secret) ;;;
  (fun w => lift_sum (kite_session w key request_token secret) w).

(** [d[key]] *)
Definition getitem (d : gmap string Py.value) (key : string) : M Py.value :=
  match d !! key with
  | Some v => ret v
  | None => raise (KeyError key)
  end.

(** [d.get(key)] *)
Definition dict_get (d : gmap string Py.value) (key : string) : Py.value :=
  default Py.VNone (d !! key).

Definition generate_access_token (cfg : ZerodhaConfig) (request_token : string)
  : M (gmap string Py.value) :=
  let* session_data :=
    generate_session (api_key cfg) request_token (api_secret cfg) in
  let* access_token := getitem session_data "access_token" in
  match token_output_path cfg with
  | Some (String c p) => write_text (String c p) access_token
  | _ => ret tt
  end ;;;
  ret session_data.

(** [range(lo, hi)] *)
Definition range (lo hi : Z) : list Z :=
  map (fun i => lo + Z.of_nat i) (seq 0 (Z.to_nat (hi - lo))).

(** How one round of the retry loop ends: the function returns, or the
    loop goes on. *)
Inductive flow := Return | Next.

Definition make_payload (cfg : ZerodhaConfig)
  (session_data : gmap string Py.value) : payload_t :=
  [ ("user_id", Py.VStr (user_id cfg));
    ("access_token", dict_get session_data "access_token");
    ("expires_in", dict_get session_data "expires_in");
    ("expires_at", dict_get session_data "expires_at");
    ("source", Py.VStr (backend_source_label cfg)) ].

(** [payload[key]] for a key of the payload. *)
Definition payload_get (p : payload_t) (key : string) : Py.value :=
  match List.find (fun kv => String.eqb (fst kv) key) p with
  | Some kv => snd kv
  | None => Py.VNone
  end.

(** The body of the [for] loop, lines 171-193. *)
Definition attempt_body (cfg : ZerodhaConfig) (payload : payload_t)
  (max_retries retry_delay attempt : Z) : M flow :=
  let* r :=
    try_except
      (let* response := requests_post (backend_update_url cfg) payload 20 in
       if ok response then
         let* decoded := lift_sum (json response) in
         print ("Backend token update succeeded: " ++ decoded) ;;;
         ret Return
       else
         print ("Backend token update failed (attempt "
                ++ Py.str_of_int attempt ++ ") status "
                ++ Py.str_of_int (status_code response) ++ ": "
                ++ text response) ;;;
         ret Next)
      is_request_exception
      (fun exc =>
         print ("Backend token update exception (attempt "
                ++ Py.str_of_int attempt ++ "): " ++ exn_str exc) ;;;
         ret Next) in
  match r with
  | Return => ret Return
  | Next =>
      (if attempt <? max_retries then
         let sleep_for := retry_delay * attempt in
         print ("Retrying in " ++ Py.str_of_int sleep_for ++ " seconds...") ;;;
         sleep sleep_for
       else ret tt) ;;;
      ret Next
  end.

Fixpoint for_attempts (body : Z -> M flow) (attempts : list Z) : M flow :=
  match attempts with
  | [] => ret Next
  | attempt :: rest =>
      let* r := body attempt in
      match r with
      | Return => ret Return
      | Next => for_attempts body rest
      end
  end.

Definition notify_backend (cfg : ZerodhaConfig)
  (session_data : gmap string Py.value) (max_retries retry_delay : Z)
  : M unit :=
  let payload := make_payload cfg session_data in
  if negb (Py.truthy (payload_get payload "access_token")) then
    raise (ValueError "Session data missing access_token")
  else
    let* r := for_attempts (attempt_body cfg payload max_retries retry_delay)
                           (range 1 (max_retries + 1)) in
    match r with
    | Return => ret tt
    | Next =>
        raise (RuntimeError
                 "Unable to update backend with new access token after retries")
    end.

(** The default values of [max_retries] and [retry_delay]. *)
Definition default_max_retries : Z := 3.
Definition default_retry_delay : Z := 5.

Definition main : M unit :=
  let* cfg := load_config in
  print "Starting automated Zerodha login..." ;;;
  let* request_token := login_and_get_request_token cfg in
  print ("Request token received: " ++ request_token) ;;;
  let* session_data := generate_access_token cfg request_token in
  print "Access token generated successfully." ;;;
  notify_backend cfg session_data default_max_retries default_retry_delay ;;;
  print "All done.".

(** ** Reading a trace *)

Local Open Scope list_scope.

Definition is_print (e : event) : bool :=
  match e with EvPrint _ => true | _ => false end.

(** The outside calls of a trace: everything but the printed lines. *)
Definition calls (t : list event) : list event :=
  List.filter (fun e => negb (is_print e)) t.

Definition is_post (e : event) : bool :=
  match e with EvPost _ _ _ => true | _ => false end.

Definition posts (t : list event) : list event := List.filter is_post t.

Fixpoint sleeps (t : list event) : list Z :=
  match t with
  | [] => []
  | EvSleep s :: t' => s :: sleeps t'
  | _ :: t' => sleeps t'
  end.

(** An attempt fails when the response is not [ok] or when
    [requests.post] raises a [RequestException]. *)
Definition fails (o : post_outcome) : bool :=
  match o with
  | Returns r => negb (ok r)
  | Raises e => is_request_exception e
  end.

(** The calls of one failed attempt. *)
Definition failed_attempt_calls (cfg : ZerodhaConfig) (payload : payload_t)
  (max_retries retry_delay attempt : Z) : list event :=
  EvPost (backend_update_url cfg) payload 20
    :: (if attempt <? max_retries then [EvSleep (retry_delay * attempt)] else []).

(** A POST of [notify_backend] as it has to look. *)
Definition post_as_configured (cfg : ZerodhaConfig)
  (session_data : gmap string Py.value) (e : event) : Prop :=
  match e with
  | EvPost url body timeout =>
      url = backend_update_url cfg
      /\ map fst body
         = ["user_id"; "access_token"; "expires_in"; "expires_at"; "source"]
      /\ body = [ ("user_id", Py.VStr (user_id cfg));
                  ("access_token", dict_get session_data "access_token");
                  ("expires_in", dict_get session_data "expires_in");
                  ("expires_at", dict_get session_data "expires_at");
                  ("source", Py.VStr (backend_source_label cfg)) ]
      /\ timeout = 20
  | _ => True
  end.

(** The calls of failed attempts that are each followed by a retry. *)
Definition backoff_calls (cfg : ZerodhaConfig) (payload : payload_t)
  (retry_delay : Z) (attempts : list Z) : list event :=
  flat_map (fun a => [EvPost (backend_update_url cfg) payload 20;
                      EvSleep (retry_delay * a)]) attempts.

(** The failures of a backend that is down: a 5xx status, or a
    [requests.ConnectionError]. *)
Definition server_or_connection_error (o : post_outcome) : Prop :=
  match o with
  | Returns r => 500 <= status_code r < 600
  | Raises e => exists msg, e = RequestException "ConnectionError" msg
  end.

Definition exhausted : exn :=
  RuntimeError "Unable to update backend with new access token after retries".

Definition missing_token : exn := ValueError "Session data missing access_token".

(** ** Sample inputs *)

Module Sample.

Definition cfg : ZerodhaConfig :=
  {| api_key := "key"; api_secret := "secret"; totp_secret := "JBSWY3DPEHPK3PXP";
     user_id := "AB1234"; password := "pw"; token_output_path := None;
     backend_update_url := DEFAULT_BACKEND_UPDATE_URL;
     backend_source_label := "automation" |}.

Definition session : gmap string Py.value :=
  {[ "access_token" := Py.VStr "tok";
     "expires_in" := Py.VInt 86400 ]}.

Definition response (status : Z) (body : string) (decoded : exn + string)
  : Response :=
  {| status_code := status; text := body; json := decoded |}.

(** A world with no .env file and no file, where the browser, the TOTP
    library and the SDK all succeed; [env] is the environment and [h] the
    outcomes of the POSTs. *)
Definition world_of (env : gmap string string) (h : nat -> post_outcome)
  : world :=
  {| environ := env; dotenv := ∅; files := ∅;
     writable := fun _ => true; http := h; chrome := None;
     login_form := fun _ _ _ => None;
     totp_now := fun _ => inr "123456"%string;
     totp_form := fun _ =>
       inr "https://127.0.0.1/?action=login&request_token=abc123&status=success"%string;
     kite_session := fun _ _ _ => inr session;
     trace := [] |}.

Definition env : gmap string string :=
  list_to_map
    [ ("Z_API_KEY", "key"); ("Z_API_SECRET", "secret");
      ("Z_TOTP_SECRET", "JBSWY3DPEHPK3PXP"); ("Z_USER_ID", "AB1234");
      ("Z_PASSWORD", "pw") ]%string.

Definition post : event :=
  EvPost DEFAULT_BACKEND_UPDATE_URL (make_payload cfg session) 20.

(** 503 with an HTML body. *)
Definition unavailable : Response :=
  response 503 "<html>Service Unavailable</html>"
           (inl (RequestException "JSONDecodeError" "Expecting value")).

(** 200 with a JSON body. *)
Definition accepted : Response :=
  response 200 "{}" (inr "{}"%string).

End Sample.

(** The required environment variables and the fields they fill. *)
Definition required : list (string * string) :=
  [ ("Z_API_KEY", "api_key"); ("Z_API_SECRET", "api_secret");
    ("Z_TOTP_SECRET", "totp_secret"); ("Z_USER_ID", "user_id");
    ("Z_PASSWORD", "password") ]%string.

(** The fields of the required variables that are empty once stripped. *)
Definition blank_required (env : gmap string string) : list string :=
  map snd
    (List.filter (fun vf => String.eqb (Py.strip (getenv env (fst vf) "")) "")
                 required).

Definition unset_or_empty (env : gmap string string) (var : string) : Prop :=
  env !! var = None \/ env !! var = Some ""%string.

Definition missing_config (missing : list string) : exn :=
  ValueError ("Missing required config values: " ++ Py.repr_names missing)%string.

(** How the retry loop takes the outcome of a POST: an [ok] response whose
    body decodes ends the run; a response that is not [ok], and a
    [RequestException] of [requests.post] or of [response.json()], lead to
    the next attempt; any other exception leaves the function. *)
Inductive verdict :=
| Accepted
| Retry
| Propagates (e : exn).

Definition verdict_of (o : post_outcome) : verdict :=
  match o with
  | Returns r =>
      if ok r then
        match json r with
        | inr _ => Accepted
        | inl e => if is_request_exception e then Retry else Propagates e
        end
      else Retry
  | Raises e => if is_request_exception e then Retry else Propagates e
  end.

(** Two worlds that differ at most by the trace and by the POST outcomes
    already consumed. *)
Definition same_outside (w w' : world) : Prop :=
  environ w' = environ w /\ dotenv w' = dotenv w /\ files w' = files w
  /\ writable w' = writable w /\ chrome w' = chrome w
  /\ login_form w' = login_form w /\ totp_now w' = totp_now w
  /\ totp_form w' = totp_form w /\ kite_session w' = kite_session w.

(** The calls of a run that makes [j] POSTs from attempt [first] on: a
    sleep of [retry_delay * a] follows each POST but the last. *)
Definition calls_of_attempts (cfg : ZerodhaConfig) (payload : payload_t)
  (retry_delay first : Z) (j : nat) : list event :=
  match j with
  | O => []
  | S j' =>
      backoff_calls cfg payload retry_delay (range first (first + Z.of_nat j'))
      ++ [EvPost (backend_update_url cfg) payload 20]
  end.

(** A string with no "&" in it. *)
Definition amp_free (s : string) : Prop := Py.contains "&" s = false.

(** The steps of a browser session between start and quit. *)
Definition is_session_boundary (e : event) : bool :=
  match e with EvChromeStart | EvChromeQuit => true | _ => false end.

(** The world after the token [tok] is written to the output path of
    [cfg], if one is set. *)
Definition after_write (cfg : ZerodhaConfig) (tok : string) (w : world) : world :=
  match token_output_path cfg with
  | Some (String c p) =>
      set_files (<[String c p := tok]> (files w))
        (log (EvWrite (String c p) tok) (log (EvOpen (String c p)) w))
  | _ => w
  end.

(** The file calls of that write. *)
Definition write_calls (cfg : ZerodhaConfig) (tok : string) : list event :=
  match token_output_path cfg with
  | Some (String c p) => [EvOpen (String c p); EvWrite (String c p) tok]
  | _ => []
  end.

(** ** The model on small inputs *)

Example strip_both_ends : Py.strip "  a b  " = "a b"%string.
Proof. reflexivity. Qed.

Example split_keeps_empty_pieces :
  Py.split "&" "a&b&&c" = ["a"; "b"; ""; "c"]%string.
Proof. reflexivity. Qed.

Example request_token_of_redirect :
  find_request_token
    (Py.split "&" "https://127.0.0.1/?action=login&request_token=abc123&status=success")
  = Some "abc123"%string.
Proof. reflexivity. Qed.

Example range_of_three_retries : range 1 (default_max_retries + 1) = [1; 2; 3].
Proof. reflexivity. Qed.

Example not_ok_from_400_to_599 :
  map (fun st => ok (Sample.response st "" (inr ""%string)))
      [199; 200; 204; 299; 304; 399; 400; 404; 500; 503; 599; 600]
  = [true; true; true; true; true; true; false; false; false; false; false; true].
Proof. reflexivity. Qed.

(** A full run of the script against a backend that accepts the token. *)
Example main_succeeds :
  let run := main (Sample.world_of Sample.env (fun _ => Returns Sample.accepted)) in
  fst run = Done tt
  /\ calls (trace (snd run))
     = [ EvChromeStart;
         EvLoginForm "https://kite.trade/connect/login?api_key=key&v=3" "AB1234" "pw";
         EvTotpForm "123456";
         EvChromeQuit;
         EvGenerateSession "key" "abc123" "secret";
         Sample.post ].
Proof. split; vm_compute; reflexivity. Qed.

(** ** Lemmas on traces and on the retry loop *)

Lemma calls_app (t1 t2 : list event) : calls (t1 ++ t2) = calls t1 ++ calls t2.
Proof. unfold calls. now rewrite List.filter_app. Qed.

(** Printed lines are neither POSTs nor sleeps. *)
Lemma posts_calls (t : list event) : posts (calls t) = posts t.
Proof. induction t as [|[] t IH]; simpl; congruence. Qed.

Lemma sleeps_calls (t : list event) : sleeps (calls t) = sleeps t.
Proof. induction t as [|[] t IH]; simpl; congruence. Qed.

Ltac unfold_monad :=
  unfold try_except, bind, requests_post, print, sleep, emit, ret, raise,
    lift_sum in *.

(** Closes a goal [exists new, t ++ [e1] ++ ... = t ++ new /\ P new]. *)
Ltac trace_ext :=
  simpl; rewrite <- ?app_assoc; simpl;
  eexists; split; [reflexivity | simpl; try reflexivity].

Section RetryLoop.

Variable cfg : ZerodhaConfig.
Variable payload : payload_t.
Variables max_retries retry_delay : Z.

Local Abbreviation body := (attempt_body cfg payload max_retries retry_delay).
Local Abbreviation post := (EvPost (backend_update_url cfg) payload 20).

(** A failed attempt goes on to the next round; it has posted once and,
    unless it was the last attempt, slept [retry_delay * attempt]. *)
Lemma attempt_body_failed (attempt : Z) (w : world) :
  fails (http w O) = true ->
  (attempt < max_retries -> 0 <= retry_delay * attempt <= max_sleep) ->
  exists w',
    body attempt w = (Done Next, w')
    /\ http w' = (fun n => http w (S n))
    /\ files w' = files w
    /\ exists new,
         trace w' = trace w ++ new
         /\ calls new
            = failed_attempt_calls cfg payload max_retries retry_delay attempt.
Proof.
  intros Hf Hd. unfold attempt_body, failed_attempt_calls.
  unfold_monad. simpl.
  destruct (http w O) as [r|e]; simpl in Hf.
  - apply negb_true_iff in Hf. rewrite Hf. simpl.
    destruct (Z.ltb_spec attempt max_retries) as [Hlt|Hge]; simpl.
    + destruct (Z.ltb_spec (retry_delay * attempt) 0) as [Hneg|_]; [lia|].
      destruct (Z.ltb_spec max_sleep (retry_delay * attempt)) as [Hbig|_];
        [lia|].
      simpl. eexists. repeat split. trace_ext.
    + eexists. repeat split. trace_ext.
  - rewrite Hf. simpl.
    destruct (Z.ltb_spec attempt max_retries) as [Hlt|Hge]; simpl.
    + destruct (Z.ltb_spec (retry_delay * attempt) 0) as [Hneg|_]; [lia|].
      destruct (Z.ltb_spec max_sleep (retry_delay * attempt)) as [Hbig|_];
        [lia|].
      simpl. eexists. repeat split. trace_ext.
    + eexists. repeat split. trace_ext.
Qed.

(** Whatever happens, an attempt starts with the POST and posts nothing
    else. *)
Lemma attempt_body_posts_first (attempt : Z) (w : world) :
  exists new,
    trace (snd (body attempt w)) = trace w ++ post :: new
    /\ posts new = [].
Proof.
  unfold attempt_body. unfold_monad. simpl.
  destruct (http w O) as [r|e]; simpl.
  - destruct (ok r); simpl.
    + destruct (json r) as [e|j]; simpl.
      * destruct (is_request_exception e); simpl.
        -- destruct (attempt <? max_retries); simpl.
           ++ destruct (retry_delay * attempt <? 0);
                [|destruct (max_sleep <? retry_delay * attempt)]; trace_ext.
           ++ trace_ext.
        -- trace_ext.
      * trace_ext.
    + destruct (attempt <? max_retries); simpl.
      * destruct (retry_delay * attempt <? 0);
          [|destruct (max_sleep <? retry_delay * attempt)]; trace_ext.
      * trace_ext.
  - destruct (is_request_exception e); simpl.
    + destruct (attempt <? max_retries); simpl.
      * destruct (retry_delay * attempt <? 0);
          [|destruct (max_sleep <? retry_delay * attempt)]; trace_ext.
      * trace_ext.
    + trace_ext.
Qed.


Lemma no_posts_Forall (t : list event) (P : event -> Prop) :
  posts t = [] -> Forall (fun e => is_post e = true -> P e) t.
Proof.
  intros Hp. apply List.Forall_forall. intros e He Hpost.
  assert (Hin : In e (posts t)) by (apply List.filter_In; auto).
  rewrite Hp in Hin. destruct Hin.
Qed.

(** The events of the loop: each round starts with its POST. *)
Lemma for_attempts_trace (l : list Z) (w : world) :
  exists new,
    trace (snd (for_attempts body l w)) = trace w ++ new
    /\ Forall (fun e => is_post e = true -> e = post) new
    /\ (l <> [] -> exists rest, new = post :: rest).
Proof.
  revert w. induction l as [|a l IH]; intros w; simpl.
  - exists []. rewrite app_nil_r. repeat split; [constructor | congruence].
  - destruct (attempt_body_posts_first a w) as (n1 & Ht & Hp).
    apply (no_posts_Forall _ (fun e => e = post)) in Hp.
    unfold bind. destruct (body a w) as [[[|]|e] w1]; simpl in *.
    + exists (post :: n1). repeat split; eauto.
    + destruct (IH w1) as (n2 & Ht2 & Hp2 & _).
      exists (post :: n1 ++ n2). rewrite Ht2, Ht, <- app_assoc. simpl.
      repeat split; eauto.
      constructor; [auto|]. apply Forall_app. split; assumption.
    + exists (post :: n1). repeat split; eauto.
Qed.

(** When every attempt of [l] fails, the loop runs to its end. *)
Lemma for_attempts_failed (l : list Z) (w : world) :
  (forall i, (i < length l)%nat -> fails (http w i) = true) ->
  Forall (fun a => a < max_retries -> 0 <= retry_delay * a <= max_sleep) l ->
  exists w',
    for_attempts body l w = (Done Next, w')
    /\ (forall n, http w' n = http w (length l + n)%nat)
    /\ files w' = files w
    /\ exists new,
         trace w' = trace w ++ new
         /\ calls new
            = flat_map
                (failed_attempt_calls cfg payload max_retries retry_delay) l.
Proof.
  revert w. induction l as [|a l IH]; intros w Hf Hd; simpl.
  - exists w. repeat split. exists []. now rewrite app_nil_r.
  - inversion Hd as [|? ? Ha Hl]; subst.
    destruct (attempt_body_failed a w) as (w1 & Hb & Hh & Hfs & n1 & Ht1 & Hc1);
      [apply Hf; simpl; lia | exact Ha |].
    unfold bind. rewrite Hb.
    destruct (IH w1) as (w2 & Hr & Hh2 & Hfs2 & n2 & Ht2 & Hc2); [|exact Hl|].
    { intros i Hi. rewrite Hh. apply Hf. simpl. lia. }
    exists w2. repeat split; [exact Hr | | congruence |].
    + intros n. rewrite Hh2, Hh. reflexivity.
    + exists (n1 ++ n2). rewrite Ht2, Ht1, <- app_assoc. split; [reflexivity|].
      rewrite calls_app, Hc1, Hc2. reflexivity.
Qed.

End RetryLoop.

Lemma range_cons (lo hi : Z) : lo < hi -> range lo hi = lo :: range (lo + 1) hi.
Proof.
  intros H. unfold range.
  replace (Z.to_nat (hi - lo)) with (S (Z.to_nat (hi - (lo + 1)))) by lia.
  simpl. f_equal; [lia|].
  rewrite <- seq_shift, map_map. apply map_ext. intros i. lia.
Qed.

Lemma range_nil (lo hi : Z) : hi <= lo -> range lo hi = [].
Proof.
  intros H. unfold range. replace (Z.to_nat (hi - lo)) with O by lia. reflexivity.
Qed.

Lemma range_length (lo hi : Z) : length (range lo hi) = Z.to_nat (hi - lo).
Proof. unfold range. now rewrite length_map, length_seq. Qed.


Lemma range_bounds (lo hi a : Z) : In a (range lo hi) -> lo <= a < hi.
Proof.
  unfold range. rewrite in_map_iff. intros (i & <- & Hi).
  apply in_seq in Hi. lia.
Qed.

Lemma payload_access_token (cfg : ZerodhaConfig) (sd : gmap string Py.value) :
  payload_get (make_payload cfg sd) "access_token" = dict_get sd "access_token".
Proof. reflexivity. Qed.


Lemma server_or_connection_error_fails (o : post_outcome) :
  server_or_connection_error o -> fails o = true.
Proof.
  destruct o as [r|e]; simpl.
  - intros H. unfold ok. apply negb_true_iff, negb_false_iff.
    apply andb_true_iff. split; [apply Z.leb_le | apply Z.ltb_lt]; lia.
  - intros [msg ->]. reflexivity.
Qed.

(** ** notify_backend *)

(** With a token, [notify_backend] is its retry loop. *)
Lemma notify_backend_with_token cfg (sd : gmap string Py.value) max_retries retry_delay :
  Py.truthy (dict_get sd "access_token") = true ->
  notify_backend cfg sd max_retries retry_delay
  = (let* r := for_attempts
                 (attempt_body cfg (make_payload cfg sd) max_retries retry_delay)
                 (range 1 (max_retries + 1)) in
     match r with
     | Return => ret tt
     | Next => raise exhausted
     end).
Proof.
  intros Htok. unfold notify_backend.
  rewrite payload_access_token, Htok. reflexivity.
Qed.

(** A run whose attempts all fail: [max_retries] POSTs, a sleep of
    [retry_delay * attempt] after each but the last, then the terminal
    error. *)
Lemma notify_backend_all_fail cfg (sd : gmap string Py.value) max_retries retry_delay w :
  Py.truthy (dict_get sd "access_token") = true ->
  0 <= retry_delay ->
  retry_delay * (max_retries - 1) <= max_sleep ->
  (forall i, (i < Z.to_nat max_retries)%nat -> fails (http w i) = true) ->
  exists w' new,
    notify_backend cfg sd max_retries retry_delay w = (Raised exhausted, w')
    /\ trace w' = trace w ++ new
    /\ calls new
       = flat_map (failed_attempt_calls cfg (make_payload cfg sd)
                                        max_retries retry_delay)
                  (range 1 (max_retries + 1)).
Proof.
  intros Htok Hd Hmax Hf. rewrite notify_backend_with_token by exact Htok.
  destruct (for_attempts_failed cfg (make_payload cfg sd) max_retries retry_delay
              (range 1 (max_retries + 1)) w)
    as (w' & Hrun & _ & _ & new & Ht & Hc).
  - intros i Hi. apply Hf. rewrite range_length in Hi. lia.
  - apply List.Forall_forall. intros a Ha Hlt. apply range_bounds in Ha. nia.
  - exists w', new. unfold bind. rewrite Hrun. auto.
Qed.

(** C1: when the three attempts of a run of [notify_backend] (default
    [max_retries] 3 and [retry_delay] 5) all fail, each with a 5xx status or
    a connection error, the run makes exactly 3 POSTs, sleeps 5 seconds
    after the first and 10 seconds after the second, does not sleep after
    the third, and raises the terminal [RuntimeError]. *)
Theorem notify_backend_three_failures cfg (sd : gmap string Py.value) w :
  Py.truthy (dict_get sd "access_token") = true ->
  (forall i, (i < 3)%nat -> server_or_connection_error (http w i)) ->
  let post := EvPost (backend_update_url cfg) (make_payload cfg sd) 20 in
  exists w' new,
    notify_backend cfg sd default_max_retries default_retry_delay w
    = (Raised exhausted, w')
    /\ trace w' = trace w ++ new
    /\ calls new = [post; EvSleep 5; post; EvSleep 10; post]
    /\ length (posts new) = 3%nat
    /\ sleeps new = [5; 10].
Proof.
  intros Htok Hf post.
  destruct (notify_backend_all_fail cfg sd default_max_retries
              default_retry_delay w Htok)
    as (w' & new & Hrun & Ht & Hc).
  - unfold default_retry_delay. lia.
  - unfold default_retry_delay, default_max_retries, max_sleep. lia.
  - intros i Hi. apply server_or_connection_error_fails, Hf. exact Hi.
  - exists w', new. change (calls new = [post; EvSleep 5; post; EvSleep 10; post]) in Hc.
    repeat split; [exact Hrun | exact Ht | exact Hc | |].
    + rewrite <- posts_calls, Hc. reflexivity.
    + rewrite <- sleeps_calls, Hc. reflexivity.
Qed.

Lemma notify_backend_three_failures_witness :
  exists w' new,
    notify_backend Sample.cfg Sample.session 3 5
      (Sample.world_of ∅ (fun _ => Returns Sample.unavailable))
    = (Raised exhausted, w')
    /\ trace w' = [] ++ new
    /\ calls new
       = [Sample.post; EvSleep 5; Sample.post; EvSleep 10; Sample.post]
    /\ length (posts new) = 3%nat
    /\ sleeps new = [5; 10].
Proof.
  apply (notify_backend_three_failures Sample.cfg Sample.session
           (Sample.world_of ∅ (fun _ => Returns Sample.unavailable))).
  - reflexivity.
  - intros i _. simpl. lia.
Defined.

(** When the first POST returns an [ok] response whose body decodes as
    JSON, the run returns after that one call: the POST and the printed
    line are its only events. *)
Lemma notify_backend_first_ok cfg (sd : gmap string Py.value) max_retries retry_delay w r decoded :
  Py.truthy (dict_get sd "access_token") = true ->
  1 <= max_retries ->
  http w O = Returns r ->
  ok r = true ->
  json r = inr decoded ->
  notify_backend cfg sd max_retries retry_delay w
  = (Done tt,
     log (EvPrint ("Backend token update succeeded: " ++ decoded)%string)
       (set_http (fun n => http w (S n))
          (log (EvPost (backend_update_url cfg) (make_payload cfg sd) 20) w))).
Proof.
  intros Htok Hm Hh Hok Hj. rewrite notify_backend_with_token by exact Htok.
  rewrite range_cons by lia. simpl. unfold attempt_body. unfold_monad.
  rewrite Hh, Hok, Hj. reflexivity.
Qed.

(** C2, at the failing input: the backend answers every POST with
    204 No Content.  The status is 2xx, but [response.json()] raises on the
    empty body; with the [JSONDecodeError] of requests (a
    [RequestException]) the handler takes the success for a failure, and the
    run posts three times, sleeps 5 and 10 seconds and raises the terminal
    error; with a decoder that raises a plain [ValueError] the run ends in
    that error after the first POST. *)
Theorem notify_backend_no_content :
  let no_content e := Sample.response 204 "" (inl e) in
  let run e :=
    notify_backend Sample.cfg Sample.session default_max_retries
      default_retry_delay
      (Sample.world_of ∅ (fun _ => Returns (no_content e))) in
  (forall e, 200 <= status_code (no_content e) < 300)
  /\ fst (run (RequestException "JSONDecodeError" "Expecting value"))
     = Raised exhausted
  /\ calls (trace (snd (run (RequestException "JSONDecodeError" "Expecting value"))))
     = [Sample.post; EvSleep 5; Sample.post; EvSleep 10; Sample.post]
  /\ fst (run (ValueError "Expecting value"))
     = Raised (ValueError "Expecting value")
  /\ calls (trace (snd (run (ValueError "Expecting value")))) = [Sample.post].
Proof.
  repeat split; try reflexivity; simpl; lia.
Qed.

(** Without a truthy token, [notify_backend] raises at once and leaves the
    world as it was. *)
Lemma notify_backend_without_token cfg (sd : gmap string Py.value) max_retries retry_delay w :
  Py.truthy (dict_get sd "access_token") = false ->
  notify_backend cfg sd max_retries retry_delay w = (Raised missing_token, w).
Proof.
  intros H. unfold notify_backend. rewrite payload_access_token, H. reflexivity.
Qed.

(** C3: when the key "access_token" is absent from [session_data],
    [notify_backend] raises the [ValueError] and leaves the world as it
    was: no POST, no sleep, no retry. *)
Theorem notify_backend_token_absent cfg (sd : gmap string Py.value) max_retries retry_delay w :
  sd !! "access_token"%string = None ->
  notify_backend cfg sd max_retries retry_delay w = (Raised missing_token, w).
Proof.
  intros H. apply notify_backend_without_token.
  unfold dict_get. rewrite H. reflexivity.
Qed.

Lemma notify_backend_token_absent_witness :
  notify_backend Sample.cfg ∅ 3 5 (Sample.world_of ∅ (fun _ => Returns Sample.accepted))
  = (Raised missing_token, Sample.world_of ∅ (fun _ => Returns Sample.accepted)).
Proof.
  apply (notify_backend_token_absent Sample.cfg ∅ 3 5
           (Sample.world_of ∅ (fun _ => Returns Sample.accepted))).
  reflexivity.
Defined.

(** C8: when "access_token" is present with a falsy value, such as the
    empty string or [None], [notify_backend] raises the same [ValueError]
    as for an absent key, and leaves the world as it was. *)
Theorem notify_backend_token_falsy cfg (sd : gmap string Py.value) max_retries retry_delay w v :
  sd !! "access_token"%string = Some v ->
  Py.truthy v = false ->
  notify_backend cfg sd max_retries retry_delay w = (Raised missing_token, w)
  /\ notify_backend cfg sd max_retries retry_delay w
     = notify_backend cfg (delete "access_token"%string sd) max_retries retry_delay w.
Proof.
  intros H Hv.
  rewrite !notify_backend_without_token; [split; reflexivity | |].
  - unfold dict_get. rewrite lookup_delete_eq. reflexivity.
  - unfold dict_get. rewrite H. exact Hv.
Qed.

Lemma notify_backend_token_falsy_witness :
  let w := Sample.world_of ∅ (fun _ => Returns Sample.accepted) in
  (notify_backend Sample.cfg {[ "access_token"%string := Py.VStr "" ]} 3 5 w
   = (Raised missing_token, w)
   /\ notify_backend Sample.cfg {[ "access_token"%string := Py.VStr "" ]} 3 5 w
      = notify_backend Sample.cfg
          (delete "access_token"%string {[ "access_token"%string := Py.VStr "" ]}) 3 5 w)
  /\ (notify_backend Sample.cfg {[ "access_token"%string := Py.VNone ]} 3 5 w
      = (Raised missing_token, w)
      /\ notify_backend Sample.cfg {[ "access_token"%string := Py.VNone ]} 3 5 w
         = notify_backend Sample.cfg
             (delete "access_token"%string {[ "access_token"%string := Py.VNone ]}) 3 5 w).
Proof.
  intros w. split.
  - apply (notify_backend_token_falsy Sample.cfg _ 3 5 w (Py.VStr ""));
      reflexivity.
  - apply (notify_backend_token_falsy Sample.cfg _ 3 5 w Py.VNone);
      reflexivity.
Defined.

Lemma snd_bind_flow (m : M flow) (e : exn) (w : world) :
  snd ((let* r := m in
        match r with Return => ret tt | Next => raise e end) w)
  = snd (m w).
Proof. unfold bind. destruct (m w) as [[[|]|e'] w']; reflexivity. Qed.

(** C6: every POST of [notify_backend] goes to the configured backend URL,
    with the JSON body of the five keys user_id, access_token, expires_in,
    expires_at and source (user_id and source of the config, the other
    three of [session_data]) and with a timeout of 20 seconds. *)
Theorem notify_backend_posts_as_configured cfg (sd : gmap string Py.value)
  max_retries retry_delay w :
  exists new,
    trace (snd (notify_backend cfg sd max_retries retry_delay w))
    = trace w ++ new
    /\ Forall (post_as_configured cfg sd) new.
Proof.
  destruct (Py.truthy (dict_get sd "access_token")) eqn:Htok.
  - rewrite notify_backend_with_token by exact Htok.
    rewrite snd_bind_flow.
    destruct (for_attempts_trace cfg (make_payload cfg sd) max_retries
                retry_delay (range 1 (max_retries + 1)) w)
      as (new & Ht & Hp & _).
    exists new. split; [exact Ht|].
    eapply Forall_impl; [exact Hp|]. intros e He.
    destruct e; simpl; auto.
    specialize (He eq_refl). inversion He; subst. repeat split.
  - exists []. unfold notify_backend.
    rewrite payload_access_token, Htok. simpl. rewrite app_nil_r.
    split; [reflexivity | constructor].
Qed.

(** ** Stripping *)

Lemma lstrip_all_space (s : string) : Py.all_space s = true -> Py.lstrip s = ""%string.
Proof.
  induction s as [|c s IH]; simpl; [reflexivity|].
  intros H. apply andb_true_iff in H as [Hc Hs]. rewrite Hc. auto.
Qed.

Lemma strip_all_space (s : string) : Py.all_space s = true -> Py.strip s = ""%string.
Proof. intros H. unfold Py.strip. now rewrite lstrip_all_space. Qed.

Lemma lstrip_head (s : string) c t :
  Py.lstrip s = String c t -> Py.isspace c = false.
Proof.
  induction s as [|c' s IH]; simpl; [discriminate|].
  destruct (Py.isspace c') eqn:Hc; [exact IH|].
  intros H. inversion H; subst. exact Hc.
Qed.

Lemma rstrip_idempotent (s : string) : Py.rstrip (Py.rstrip s) = Py.rstrip s.
Proof.
  induction s as [|c s IH]; simpl; [reflexivity|].
  destruct (String.eqb (Py.rstrip s) "" && Py.isspace c) eqn:Hb; [reflexivity|].
  simpl. rewrite IH, Hb. reflexivity.
Qed.

Lemma strip_idempotent (s : string) : Py.strip (Py.strip s) = Py.strip s.
Proof.
  unfold Py.strip.
  destruct (Py.lstrip s) as [|c t] eqn:Hl; [reflexivity|].
  pose proof (lstrip_head _ _ _ Hl) as Hc.
  simpl. rewrite Hc, andb_false_r. simpl. rewrite Hc.
  change (Py.rstrip (String c (Py.rstrip t)) = String c (Py.rstrip t)).
  simpl. rewrite rstrip_idempotent, Hc, andb_false_r. reflexivity.
Qed.

(** [strip] removes a run of whitespace at each end, and nothing else. *)
Lemma lstrip_spec (s : string) :
  exists l, s = (l ++ Py.lstrip s)%string /\ Py.all_space l = true.
Proof.
  induction s as [|c s (l & Hs & Hl)]; simpl.
  - exists ""%string. auto.
  - destruct (Py.isspace c) eqn:Hc.
    + exists (String c l). simpl. rewrite Hc, Hl. split; [|reflexivity].
      change (String c s = String c (l ++ Py.lstrip s)%string). congruence.
    + exists ""%string. auto.
Qed.

Lemma rstrip_spec (s : string) :
  exists r, s = (Py.rstrip s ++ r)%string /\ Py.all_space r = true.
Proof.
  induction s as [|c s (r & Hs & Hr)]; simpl.
  - exists ""%string. auto.
  - destruct (String.eqb (Py.rstrip s) "" && Py.isspace c) eqn:Hb.
    + apply andb_true_iff in Hb as [He Hc]. apply String.eqb_eq in He.
      rewrite He in Hs. change (s = r) in Hs. subst s.
      exists (String c r). simpl. rewrite Hc, Hr. auto.
    + exists r. split; [|exact Hr].
      change (String c s = String c (Py.rstrip s ++ r)%string). congruence.
Qed.

Lemma strip_spec (s : string) :
  exists l r,
    s = (l ++ Py.strip s ++ r)%string
    /\ Py.all_space l = true /\ Py.all_space r = true.
Proof.
  destruct (lstrip_spec s) as (l & Hs & Hl).
  destruct (rstrip_spec (Py.lstrip s)) as (r & Ht & Hr).
  exists l, r. unfold Py.strip. rewrite <- Ht. auto.
Qed.

(** ** load_config *)

Lemma load_config_eq (w : world) :
  let env := environ w ∪ dotenv w in
  load_config w
  = (match missing_fields (config_of_env env) with
     | [] => Done (config_of_env env)
     | missing => Raised (missing_config missing)
     end, set_environ env w).
Proof.
  unfold load_config, load_dotenv, get_environ, bind, ret, raise. simpl.
  destruct (missing_fields _); reflexivity.
Qed.

Lemma str_or_nonempty (a b : string) :
  String.eqb b "" = false -> String.eqb (str_or a b) "" = false.
Proof. intros H. unfold str_or. destruct (String.eqb a "") eqn:Ha; auto. Qed.

Lemma backend_update_url_nonempty (env : gmap string string) :
  String.eqb (backend_update_url (config_of_env env)) "" = false.
Proof. apply str_or_nonempty. reflexivity. Qed.

Lemma backend_source_label_nonempty (env : gmap string string) :
  String.eqb (backend_source_label (config_of_env env)) "" = false.
Proof. apply str_or_nonempty. reflexivity. Qed.

(** The list [missing] holds the blank required fields and no other. *)
Lemma missing_fields_cfg (cfg : ZerodhaConfig) :
  String.eqb (backend_update_url cfg) "" = false ->
  missing_fields cfg
  = map snd
      (List.filter (fun vn => String.eqb (fst vn) "")
         [ (api_key cfg, "api_key"); (api_secret cfg, "api_secret");
           (totp_secret cfg, "totp_secret"); (user_id cfg, "user_id");
           (password cfg, "password") ]%string).
Proof.
  destruct cfg as [k s t u p path url label]. simpl. intros Hurl.
  unfold missing_fields, vars. simpl. rewrite Hurl.
  destruct (String.eqb k ""), (String.eqb s ""), (String.eqb t ""),
    (String.eqb u ""), (String.eqb p ""), (String.eqb label ""), path;
    simpl; rewrite ?andb_false_r; reflexivity.
Qed.

Lemma missing_fields_required (env : gmap string string) :
  missing_fields (config_of_env env) = blank_required env.
Proof.
  rewrite missing_fields_cfg by apply backend_update_url_nonempty.
  unfold blank_required, required. simpl.
  destruct (String.eqb (Py.strip (getenv env "Z_API_KEY" "")) ""),
    (String.eqb (Py.strip (getenv env "Z_API_SECRET" "")) ""),
    (String.eqb (Py.strip (getenv env "Z_TOTP_SECRET" "")) ""),
    (String.eqb (Py.strip (getenv env "Z_USER_ID" "")) ""),
    (String.eqb (Py.strip (getenv env "Z_PASSWORD" "")) "");
    reflexivity.
Qed.

Lemma blank_required_In (env : gmap string string) (field : string) :
  In field (blank_required env)
  <-> exists var, In (var, field) required
                  /\ Py.strip (getenv env var "") = ""%string.
Proof.
  unfold blank_required. rewrite in_map_iff. split.
  - intros ([var f] & <- & Hin). apply List.filter_In in Hin as [Hin Hb].
    exists var. split; [exact Hin | now apply String.eqb_eq].
  - intros (var & Hin & Hs). exists (var, field). split; [reflexivity|].
    apply List.filter_In. split; [exact Hin | now apply String.eqb_eq].
Qed.

Lemma main_load_config_raises (w : world) (e : exn) (w' : world) :
  load_config w = (Raised e, w') -> main w = (Raised e, w').
Proof. intros H. unfold main, bind. rewrite H. reflexivity. Qed.

(** C5: when a required field (api_key, api_secret, totp_secret, user_id
    or password) is empty after stripping, [load_config] raises the
    [ValueError] that names the missing fields, which are the required
    fields that are blank; [main] ends in that error having made no call at
    all: its trace and the files are as before, the world differs only by
    the variables that [load_dotenv] added to the environment. *)
Theorem load_config_fails_fast (w : world) :
  let env := environ w ∪ dotenv w in
  (exists var field,
     In (var, field) required /\ Py.strip (getenv env var "") = ""%string) ->
  blank_required env <> []
  /\ (forall field,
        In field (blank_required env)
        <-> exists var, In (var, field) required
                        /\ Py.strip (getenv env var "") = ""%string)
  /\ load_config w
     = (Raised (missing_config (blank_required env)), set_environ env w)
  /\ main w = (Raised (missing_config (blank_required env)), set_environ env w)
  /\ trace (snd (main w)) = trace w
  /\ files (snd (main w)) = files w.
Proof.
  intros env (var & field & Hin & Hs).
  assert (Hne : blank_required env <> []).
  { intros Hnil.
    assert (H : In field (blank_required env))
      by (apply blank_required_In; eauto).
    rewrite Hnil in H. destruct H. }
  assert (Hload : load_config w
                  = (Raised (missing_config (blank_required env)),
                     set_environ env w)).
  { rewrite load_config_eq. fold env. rewrite missing_fields_required.
    destruct (blank_required env); [congruence | reflexivity]. }
  pose proof (main_load_config_raises _ _ _ Hload) as Hmain.
  split; [exact Hne|]. split; [intros f; apply blank_required_In|].
  split; [exact Hload|]. split; [exact Hmain|].
  rewrite Hmain. split; reflexivity.
Qed.

Lemma load_config_fails_fast_witness :
  let w := Sample.world_of (<["Z_USER_ID"%string := "  "%string]>
                              (delete "Z_API_KEY"%string Sample.env))
             (fun _ => Returns Sample.accepted) in
  let env := environ w ∪ dotenv w in
  blank_required env = ["api_key"; "user_id"]%string
  /\ load_config w
     = (Raised (ValueError "Missing required config values: ['api_key', 'user_id']"),
        set_environ env w)
  /\ main w
     = (Raised (ValueError "Missing required config values: ['api_key', 'user_id']"),
        set_environ env w)
  /\ trace (snd (main w)) = [].
Proof.
  intros w env.
  destruct (load_config_fails_fast w) as (_ & _ & Hl & Hm & Ht & _).
  - exists "Z_API_KEY"%string, "api_key"%string. split; [left|]; reflexivity.
  - split; [vm_compute; reflexivity|].
    split; [exact Hl|]. split; [exact Hm | exact Ht].
Defined.

(** A whitespace-only value and an unset variable strip to the same. *)
Lemma strip_getenv_delete (env : gmap string string) (var v key : string) :
  env !! var = Some v ->
  Py.all_space v = true ->
  Py.strip (getenv (delete var env) key "") = Py.strip (getenv env key "").
Proof.
  intros Hv Hs. unfold getenv. destruct (decide (var = key)) as [<-|Hne].
  - rewrite lookup_delete_eq, Hv. change (Py.strip "" = Py.strip v).
    rewrite (strip_all_space v Hs). reflexivity.
  - now rewrite lookup_delete_ne.
Qed.

Lemma config_of_env_delete (env : gmap string string) (var field v : string) :
  In (var, field) required ->
  env !! var = Some v ->
  Py.all_space v = true ->
  config_of_env (delete var env) = config_of_env env.
Proof.
  intros Hin Hv Hs. unfold config_of_env.
  rewrite !(strip_getenv_delete env var v) by assumption.
  f_equal. unfold getenv. rewrite lookup_delete_ne; [reflexivity|].
  simpl in Hin. intuition congruence.
Qed.

(** Every field but the source label holds a stripped value. *)
Lemma fields_stripped (env : gmap string string) (name s : string) :
  In (name, Some s) (vars (config_of_env env)) ->
  name <> "backend_source_label"%string ->
  Py.strip s = s.
Proof.
  unfold vars, config_of_env. simpl. intros H Hname.
  repeat (destruct H as [H|H];
          [inversion H; subst; clear H; try apply strip_idempotent|]).
  - destruct (String.eqb _ _); [discriminate|].
    inversion H2. apply strip_idempotent.
  - unfold str_or. destruct (String.eqb _ _);
      [reflexivity | apply strip_idempotent].
  - congruence.
  - destruct H.
Qed.

(** C9, amended: [load_config] strips the whitespace at both ends of the
    values of the five required variables, of TOKEN_OUTPUT_PATH and of
    BACKEND_UPDATE_URL: a config it returns holds, for each of them, the
    value of the variable without the whitespace at its ends (for the two
    optional ones the default when nothing is left).  So a required
    variable set to whitespace alone counts as missing and gives the
    [ValueError] that the same environment gives with the variable
    unset. *)
Theorem whitespace_only_is_missing :
  (forall w cfg w',
     load_config w = (Done cfg, w') ->
     let stripped var := Py.strip (getenv (environ w ∪ dotenv w) var "") in
     api_key cfg = stripped "Z_API_KEY"%string
     /\ api_secret cfg = stripped "Z_API_SECRET"%string
     /\ totp_secret cfg = stripped "Z_TOTP_SECRET"%string
     /\ user_id cfg = stripped "Z_USER_ID"%string
     /\ password cfg = stripped "Z_PASSWORD"%string
     /\ token_output_path cfg
        = (if String.eqb (stripped "TOKEN_OUTPUT_PATH"%string) ""
           then None else Some (stripped "TOKEN_OUTPUT_PATH"%string))
     /\ backend_update_url cfg
        = (if String.eqb (stripped "BACKEND_UPDATE_URL"%string) ""
           then DEFAULT_BACKEND_UPDATE_URL
           else stripped "BACKEND_UPDATE_URL"%string))
  /\ (forall s,
        Py.strip (Py.strip s) = Py.strip s
        /\ exists l r,
             s = (l ++ Py.strip s ++ r)%string
             /\ Py.all_space l = true /\ Py.all_space r = true)
  /\ (forall (w w' : world) (var field v : string),
        let env := environ w ∪ dotenv w in
        In (var, field) required ->
        env !! var = Some v ->
        Py.all_space v = true ->
        environ w' ∪ dotenv w' = delete var env ->
        In field (blank_required env)
        /\ fst (load_config w) = Raised (missing_config (blank_required env))
        /\ fst (load_config w') = fst (load_config w)).
Proof.
  split; [|split].
  - intros w cfg w'. rewrite load_config_eq.
    destruct (missing_fields _); [|discriminate].
    intros H. inversion H; subst cfg w'. repeat split.
  - intros s. split; [apply strip_idempotent | apply strip_spec].
  - intros w w' var field v env Hin Hv Hs Hw'.
    assert (Hblank : In field (blank_required env)).
    { apply blank_required_In. exists var. split; [exact Hin|].
      unfold getenv. rewrite Hv. change (Py.strip v = ""%string).
      now apply strip_all_space. }
    split; [exact Hblank|].
    assert (Hload : fst (load_config w)
                    = Raised (missing_config (blank_required env))).
    { rewrite load_config_eq. fold env. rewrite missing_fields_required.
      destruct (blank_required env); [destruct Hblank | reflexivity]. }
    split; [exact Hload|].
    rewrite (load_config_eq w'), Hw', (load_config_eq w). fold env. simpl.
    now rewrite (config_of_env_delete env var field v).
Qed.

Lemma whitespace_only_is_missing_witness :
  let w := Sample.world_of (<["Z_PASSWORD"%string := "   "%string]> Sample.env)
             (fun _ => Returns Sample.accepted) in
  let w' := Sample.world_of (delete "Z_PASSWORD"%string Sample.env)
              (fun _ => Returns Sample.accepted) in
  let padded :=
    Sample.world_of
      (<["TOKEN_OUTPUT_PATH"%string := " token.txt "%string]>
         (<["BACKEND_UPDATE_URL"%string := "  "%string]>
            (<["Z_API_KEY"%string := " key"%string]> Sample.env)))
      (fun _ => Returns Sample.accepted) in
  (fst (load_config w)
   = Raised (ValueError "Missing required config values: ['password']")
   /\ fst (load_config w') = fst (load_config w))
  /\ (api_key (config_of_env (environ padded ∪ dotenv padded)) = "key"%string
      /\ token_output_path (config_of_env (environ padded ∪ dotenv padded))
         = Some "token.txt"%string
      /\ backend_update_url (config_of_env (environ padded ∪ dotenv padded))
         = DEFAULT_BACKEND_UPDATE_URL).
Proof.
  intros w w' padded.
  destruct whitespace_only_is_missing as (Hfields & _ & Hmissing). split.
  - destruct (Hmissing w w' "Z_PASSWORD"%string "password"%string
                "   "%string) as (_ & Hl & He).
    + simpl. tauto.
    + vm_compute. reflexivity.
    + reflexivity.
    + vm_compute. reflexivity.
    + split; [exact Hl | exact He].
  - destruct (Hfields padded (config_of_env (environ padded ∪ dotenv padded))
                (set_environ (environ padded ∪ dotenv padded) padded))
      as (Hk & _ & _ & _ & _ & Hp & Hu).
    + vm_compute. reflexivity.
    + rewrite Hk, Hp, Hu. vm_compute. repeat split.
Defined.

(** C9 as stated fails for BACKEND_SOURCE_LABEL, whose value is taken as it
    is: the config keeps the spaces around the label. *)
Lemma source_label_is_not_stripped :
  let env := <["BACKEND_SOURCE_LABEL"%string := " nightly "%string]> Sample.env in
  exists cfg,
    fst (load_config (Sample.world_of env (fun _ => Returns Sample.accepted)))
    = Done cfg
    /\ backend_source_label cfg = " nightly "%string
    /\ Py.strip " nightly " = "nightly"%string.
Proof.
  eexists. split; [vm_compute; reflexivity|]. split; reflexivity.
Qed.

Lemma getenv_unset_or_empty (env : gmap string string) (var dflt : string) :
  unset_or_empty env var -> str_or (getenv env var dflt) dflt = dflt.
Proof.
  unfold getenv, str_or. intros [-> | ->]; simpl; [|reflexivity].
  destruct (String.eqb dflt ""); reflexivity.
Qed.

Lemma strip_unset_or_empty (env : gmap string string) (var : string) :
  unset_or_empty env var -> Py.strip (getenv env var "") = ""%string.
Proof. unfold getenv. intros [-> | ->]; reflexivity. Qed.

(** C10, amended: when the five required variables are non-empty after
    stripping and BACKEND_UPDATE_URL, BACKEND_SOURCE_LABEL and
    TOKEN_OUTPUT_PATH are unset or empty, [load_config] returns a config
    with the default backend URL, the source label "automation" and no
    token output path; in every environment the two backend fields are
    non-empty. *)
Theorem load_config_defaults (w : world) :
  let env := environ w ∪ dotenv w in
  (forall var field,
     In (var, field) required -> Py.strip (getenv env var "") <> ""%string) ->
  unset_or_empty env "BACKEND_UPDATE_URL" ->
  unset_or_empty env "BACKEND_SOURCE_LABEL" ->
  unset_or_empty env "TOKEN_OUTPUT_PATH" ->
  (exists cfg,
     load_config w = (Done cfg, set_environ env w)
     /\ backend_update_url cfg = DEFAULT_BACKEND_UPDATE_URL
     /\ backend_source_label cfg = "automation"%string
     /\ token_output_path cfg = None)
  /\ (forall env' : gmap string string,
        backend_update_url (config_of_env env') <> ""%string
        /\ backend_source_label (config_of_env env') <> ""%string).
Proof.
  intros env Hreq Hurl Hlabel Hpath. split.
  - exists (config_of_env env). split; [|split; [|split]].
    + rewrite load_config_eq. fold env. rewrite missing_fields_required.
      destruct (blank_required env) as [|f l] eqn:Hb; [reflexivity|].
      assert (Hin : In f (blank_required env)) by (rewrite Hb; now left).
      apply blank_required_In in Hin as (var & Hin & Hs).
      destruct (Hreq var f Hin Hs).
    + unfold config_of_env, backend_update_url.
      now rewrite strip_unset_or_empty.
    + unfold config_of_env, backend_source_label.
      now apply getenv_unset_or_empty.
    + unfold config_of_env, token_output_path.
      now rewrite strip_unset_or_empty.
  - intros env'. split; intros H.
    + pose proof (backend_update_url_nonempty env') as Hn.
      rewrite H in Hn. discriminate.
    + pose proof (backend_source_label_nonempty env') as Hn.
      rewrite H in Hn. discriminate.
Qed.

Lemma load_config_defaults_witness :
  let w := Sample.world_of Sample.env (fun _ => Returns Sample.accepted) in
  exists cfg,
    load_config w = (Done cfg, set_environ (environ w ∪ dotenv w) w)
    /\ backend_update_url cfg = DEFAULT_BACKEND_UPDATE_URL
    /\ backend_source_label cfg = "automation"%string
    /\ token_output_path cfg = None.
Proof.
  intros w. apply (load_config_defaults w).
  - intros var field Hin. simpl in Hin.
    repeat (destruct Hin as [Hin|Hin];
            [inversion Hin; subst; vm_compute; discriminate|]).
    destruct Hin.
  - left. vm_compute. reflexivity.
  - left. vm_compute. reflexivity.
  - left. vm_compute. reflexivity.
Defined.

(** C10 as stated fails: with Z_API_KEY set to one space the five required
    variables are all set and non-empty and the three optional ones are
    unset, yet [load_config] raises. *)
Lemma blank_api_key_is_refused :
  let env := <["Z_API_KEY"%string := " "%string]> Sample.env in
  (forall var field,
     In (var, field) required ->
     exists v, env !! var = Some v /\ v <> ""%string)
  /\ env !! "BACKEND_UPDATE_URL"%string = None
  /\ env !! "BACKEND_SOURCE_LABEL"%string = None
  /\ env !! "TOKEN_OUTPUT_PATH"%string = None
  /\ fst (load_config (Sample.world_of env (fun _ => Returns Sample.accepted)))
     = Raised (ValueError "Missing required config values: ['api_key']").
Proof.
  split; [|repeat split; vm_compute; reflexivity].
  intros var field Hin. simpl in Hin.
  repeat (destruct Hin as [Hin|Hin];
          [inversion Hin; subst; eexists;
           split; [vm_compute; reflexivity | discriminate]|]).
  destruct Hin.
Qed.

(** ** generate_access_token *)

(** C7: when the SDK returns a session whose access token is a string,
    [generate_access_token] returns that session as it is; with a token
    output path set (and writable) the file at that path then holds the
    token string and nothing else, and no other file changes; with no path
    the files are as before.  The SDK call is the only event. *)
Theorem generate_access_token_writes_token cfg request_token w
  (sd : gmap string Py.value) (tok : string) :
  kite_session w (api_key cfg) request_token (api_secret cfg) = inr sd ->
  sd !! "access_token"%string = Some (Py.VStr tok) ->
  let call := EvGenerateSession (api_key cfg) request_token (api_secret cfg) in
  (forall path,
     token_output_path cfg = Some path -> path <> ""%string ->
     writable w path = true ->
     exists w',
       generate_access_token cfg request_token w = (Done sd, w')
       /\ files w' = <[path := tok]> (files w)
       /\ trace w' = trace w ++ [call; EvOpen path; EvWrite path tok])
  /\ (token_output_path cfg = None ->
      exists w',
        generate_access_token cfg request_token w = (Done sd, w')
        /\ files w' = files w
        /\ trace w' = trace w ++ [call]).
Proof.
  intros Hsdk Htok call.
  unfold generate_access_token, generate_session, getitem, write_text.
  unfold bind, emit, lift_sum, ret. simpl. rewrite Hsdk, Htok. simpl.
  split.
  - intros path -> Hne Hw. destruct path as [|c p]; [congruence|].
    simpl. rewrite Hw. eexists. split; [reflexivity|]. split; [reflexivity|].
    simpl. rewrite <- !app_assoc. reflexivity.
  - intros ->. eexists. repeat split.
Qed.

Lemma generate_access_token_writes_token_witness :
  let w := Sample.world_of Sample.env (fun _ => Returns Sample.accepted) in
  let with_path :=
    {| api_key := "key"; api_secret := "secret";
       totp_secret := "JBSWY3DPEHPK3PXP"; user_id := "AB1234";
       password := "pw"; token_output_path := Some "token.txt"%string;
       backend_update_url := DEFAULT_BACKEND_UPDATE_URL;
       backend_source_label := "automation" |} in
  (exists w',
     generate_access_token with_path "abc123" w = (Done Sample.session, w')
     /\ files w' = <["token.txt"%string := "tok"%string]> (files w)
     /\ trace w' = trace w ++ [EvGenerateSession "key" "abc123" "secret";
                               EvOpen "token.txt"; EvWrite "token.txt" "tok"])
  /\ (exists w',
        generate_access_token Sample.cfg "abc123" w = (Done Sample.session, w')
        /\ files w' = files w
        /\ trace w' = trace w ++ [EvGenerateSession "key" "abc123" "secret"]).
Proof.
  intros w with_path. split.
  - destruct (generate_access_token_writes_token with_path "abc123" w
                Sample.session "tok") as [H _]; [reflexivity | reflexivity |].
    apply (H "token.txt"%string); [reflexivity | discriminate | reflexivity].
  - destruct (generate_access_token_writes_token Sample.cfg "abc123" w
                Sample.session "tok") as [_ H]; [reflexivity | reflexivity |].
    apply H. reflexivity.
Defined.

(** An empty output path is no path: nothing is written. *)
Lemma generate_access_token_empty_path cfg request_token w
  (sd : gmap string Py.value) (v : Py.value) :
  kite_session w (api_key cfg) request_token (api_secret cfg) = inr sd ->
  sd !! "access_token"%string = Some v ->
  token_output_path cfg = Some ""%string ->
  generate_access_token cfg request_token w
  = (Done sd,
     log (EvGenerateSession (api_key cfg) request_token (api_secret cfg)) w).
Proof.
  intros Hsdk Htok Hp.
  unfold generate_access_token, generate_session, getitem.
  unfold bind, emit, lift_sum, ret. simpl. rewrite Hsdk, Htok, Hp. reflexivity.
Qed.

(** ** More on the retry loop *)

Lemma same_outside_refl (w : world) : same_outside w w.
Proof. repeat split. Qed.

Lemma same_outside_trans (w1 w2 w3 : world) :
  same_outside w1 w2 -> same_outside w2 w3 -> same_outside w1 w3.
Proof.
  unfold same_outside. intros H1 H2.
  destruct H1 as (?&?&?&?&?&?&?&?&?), H2 as (?&?&?&?&?&?&?&?&?).
  repeat split; congruence.
Qed.

Section Attempts.

Variable cfg : ZerodhaConfig.
Variable payload : payload_t.
Variables max_retries retry_delay : Z.

Local Abbreviation body := (attempt_body cfg payload max_retries retry_delay).
Local Abbreviation post := (EvPost (backend_update_url cfg) payload 20).

(** One round of the loop, by the verdict on the outcome of its POST. *)
Lemma attempt_body_cases (attempt : Z) (w : world) :
  http (snd (body attempt w)) = (fun n => http w (S n))
  /\ same_outside w (snd (body attempt w))
  /\ exists new,
       trace (snd (body attempt w)) = trace w ++ new
       /\ match verdict_of (http w O) with
          | Accepted => fst (body attempt w) = Done Return /\ calls new = [post]
          | Propagates e => fst (body attempt w) = Raised e /\ calls new = [post]
          | Retry =>
              if attempt <? max_retries then
                if retry_delay * attempt <? 0 then
                  fst (body attempt w)
                  = Raised (ValueError "sleep length must be non-negative")
                  /\ calls new = [post]
                else if max_sleep <? retry_delay * attempt then
                  fst (body attempt w)
                  = Raised (OtherError "OverflowError"
                              "timestamp too large to convert to C _PyTime_t")
                  /\ calls new = [post]
                else
                  fst (body attempt w) = Done Next
                  /\ calls new = [post; EvSleep (retry_delay * attempt)]
              else fst (body attempt w) = Done Next /\ calls new = [post]
          end.
Proof.
  unfold attempt_body, verdict_of. unfold_monad. simpl.
  destruct (http w O) as [r|e]; simpl.
  - destruct (ok r); simpl.
    + destruct (json r) as [e|j]; simpl.
      * destruct (is_request_exception e); simpl.
        -- destruct (attempt <? max_retries); simpl.
           ++ destruct (retry_delay * attempt <? 0);
                [|destruct (max_sleep <? retry_delay * attempt)]; simpl;
                (split; [reflexivity|]; split; [repeat split|]; trace_ext; auto).
           ++ split; [reflexivity|]; split; [repeat split|]; trace_ext; auto.
        -- split; [reflexivity|]; split; [repeat split|]; trace_ext; auto.
      * split; [reflexivity|]; split; [repeat split|]; trace_ext; auto.
    + destruct (attempt <? max_retries); simpl.
      * destruct (retry_delay * attempt <? 0);
          [|destruct (max_sleep <? retry_delay * attempt)]; simpl;
          (split; [reflexivity|]; split; [repeat split|]; trace_ext; auto).
      * split; [reflexivity|]; split; [repeat split|]; trace_ext; auto.
  - destruct (is_request_exception e); simpl.
    + destruct (attempt <? max_retries); simpl.
      * destruct (retry_delay * attempt <? 0);
          [|destruct (max_sleep <? retry_delay * attempt)]; simpl;
          (split; [reflexivity|]; split; [repeat split|]; trace_ext; auto).
      * split; [reflexivity|]; split; [repeat split|]; trace_ext; auto.
    + split; [reflexivity|]; split; [repeat split|]; trace_ext; auto.
Qed.



End Attempts.







(** X2: with [max_retries] zero or negative the loop is empty: a run with a
    token makes no POST, leaves the world as it was and raises the terminal
    [RuntimeError], whatever the backend would have answered. *)
Theorem notify_backend_no_attempt cfg (sd : gmap string Py.value)
  max_retries retry_delay w :
  Py.truthy (dict_get sd "access_token") = true ->
  max_retries <= 0 ->
  notify_backend cfg sd max_retries retry_delay w = (Raised exhausted, w).
Proof.
  intros Htok Hm. rewrite notify_backend_with_token by exact Htok.
  rewrite range_nil by lia. reflexivity.
Qed.

Lemma notify_backend_no_attempt_witness :
  notify_backend Sample.cfg Sample.session 0 5
    (Sample.world_of ∅ (fun _ => Returns Sample.accepted))
  = (Raised exhausted, Sample.world_of ∅ (fun _ => Returns Sample.accepted)).
Proof.
  apply (notify_backend_no_attempt Sample.cfg Sample.session 0 5
           (Sample.world_of ∅ (fun _ => Returns Sample.accepted))).
  - reflexivity.
  - lia.
Defined.










(** The loop from attempt [a] on, whatever the backend answers: some
    number [j] of POSTs, the sleeps between them, [j] outcomes consumed
    and nothing else touched. *)
Lemma for_attempts_shape cfg payload max_retries retry_delay (n : nat) :
  forall a w,
    Z.of_nat n = max_retries + 1 - a ->
    let run := for_attempts (attempt_body cfg payload max_retries retry_delay)
                            (range a (max_retries + 1)) w in
    exists new j,
      trace (snd run) = trace w ++ new
      /\ (j <= n)%nat /\ (j = O <-> n = O)
      /\ calls new = calls_of_attempts cfg payload retry_delay a j
      /\ (forall m, http (snd run) m = http w (j + m)%nat)
      /\ same_outside w (snd run).
Proof.
  induction n as [|n IH]; intros a w Hn run; subst run.
  - rewrite range_nil by lia. simpl. exists [], O. rewrite app_nil_r.
    repeat split; auto.
  - rewrite range_cons by lia. cbn [for_attempts]. unfold bind.
    destruct (attempt_body_cases cfg payload max_retries retry_delay a w)
      as (Hh & Hso & n1 & Ht1 & Hc).
    assert (Hone : calls n1 = [EvPost (backend_update_url cfg) payload 20] ->
                   calls n1 = calls_of_attempts cfg payload retry_delay a 1).
    { intros ->. unfold calls_of_attempts. rewrite range_nil by lia. reflexivity. }
    assert (Hstop : forall r w1,
              trace w1 = trace w ++ n1 ->
              http w1 = (fun m => http w (S m)) ->
              same_outside w w1 ->
              calls n1 = [EvPost (backend_update_url cfg) payload 20] ->
              exists new j,
                trace (snd (r : result flow, w1)) = trace w ++ new
                /\ (j <= S n)%nat /\ (j = O <-> S n = O)
                /\ calls new = calls_of_attempts cfg payload retry_delay a j
                /\ (forall m, http (snd (r, w1)) m = http w (j + m)%nat)
                /\ same_outside w (snd (r, w1))).
    { intros r w1 Ht Hh1 Hs Hc1. exists n1, 1%nat. simpl.
      split; [exact Ht|]. split; [lia|]. split; [split; discriminate|].
      split; [apply Hone, Hc1|]. split; [now rewrite Hh1 | exact Hs]. }
    destruct (attempt_body cfg payload max_retries retry_delay a w)
      as [r w1]. simpl in Hh, Hso, Ht1, Hc.
    destruct (verdict_of (http w O)) as [| |e].
    + destruct Hc as [-> Hc]. unfold ret. apply (Hstop (Done Return) w1); assumption.
    + destruct (Z.ltb_spec a max_retries) as [Hlt|Hge].
      * destruct (retry_delay * a <? 0);
          [|destruct (max_sleep <? retry_delay * a)].
        -- destruct Hc as [-> Hc]. apply (Hstop (Raised _) w1); assumption.
        -- destruct Hc as [-> Hc]. apply (Hstop (Raised _) w1); assumption.
        -- destruct Hc as [-> Hc].
           destruct (IH (a + 1) w1) as (n2 & j & Ht2 & Hj & Hj0 & Hc2 & Hh2 & Hs2);
             [lia|].
           destruct j as [|j]; [destruct Hj0 as [Hj0 _]; specialize (Hj0 eq_refl); lia|].
           exists (n1 ++ n2), (S (S j)).
           rewrite Ht2, Ht1, <- app_assoc. split; [reflexivity|].
           split; [lia|]. split; [split; discriminate|].
           split; [|split].
           ++ rewrite calls_app, Hc, Hc2. unfold calls_of_attempts.
              rewrite (range_cons a (a + Z.of_nat (S j))) by lia.
              replace (a + Z.of_nat (S j)) with (a + 1 + Z.of_nat j) by lia.
              reflexivity.
           ++ intros m. rewrite Hh2, Hh. f_equal; lia.
           ++ eapply same_outside_trans; eassumption.
      * destruct Hc as [-> Hc].
        destruct (IH (a + 1) w1) as (n2 & j & Ht2 & Hj & Hj0 & Hc2 & Hh2 & Hs2);
          [lia|].
        assert (j = O) by lia. subst j.
        exists (n1 ++ n2), 1%nat.
        rewrite Ht2, Ht1, <- app_assoc. split; [reflexivity|].
        split; [lia|]. split; [split; discriminate|].
        split; [|split].
        -- rewrite calls_app, Hc2.
           change (calls_of_attempts cfg payload retry_delay (a + 1) 0)
             with (@nil event).
           rewrite app_nil_r. apply (Hone Hc).
        -- intros m. rewrite Hh2, Hh. reflexivity.
        -- eapply same_outside_trans; eassumption.
    + destruct Hc as [-> Hc]. apply (Hstop (Raised e) w1); assumption.
Qed.

Lemma posts_calls_of_attempts cfg payload retry_delay first (j : nat) :
  length (posts (calls_of_attempts cfg payload retry_delay first j)) = j.
Proof.
  destruct j as [|j]; [reflexivity|]. unfold calls_of_attempts.
  unfold posts. rewrite List.filter_app, length_app. simpl.
  assert (H : forall l, length (List.filter is_post
                                  (backoff_calls cfg payload retry_delay l))
                        = length l).
  { induction l as [|a l IH]; simpl; [reflexivity | now rewrite IH]. }
  rewrite H, range_length. lia.
Qed.

(** Every run of [notify_backend], by the number [j] of POSTs it makes. *)
Lemma notify_backend_run cfg (sd : gmap string Py.value) max_retries retry_delay w :
  exists new j,
    trace (snd (notify_backend cfg sd max_retries retry_delay w)) = trace w ++ new
    /\ (j <= Z.to_nat max_retries)%nat
    /\ calls new = calls_of_attempts cfg (make_payload cfg sd) retry_delay 1 j
    /\ (forall m, http (snd (notify_backend cfg sd max_retries retry_delay w)) m
                  = http w (j + m)%nat)
    /\ same_outside w (snd (notify_backend cfg sd max_retries retry_delay w)).
Proof.
  destruct (Py.truthy (dict_get sd "access_token")) eqn:Htok.
  - rewrite notify_backend_with_token by exact Htok. rewrite snd_bind_flow.
    destruct (Z.le_gt_cases max_retries 0) as [Hle|Hgt].
    + rewrite range_nil by lia. simpl.
      exists [], O. rewrite app_nil_r. repeat split; auto. lia.
    + destruct (for_attempts_shape cfg (make_payload cfg sd) max_retries
                  retry_delay (Z.to_nat max_retries) 1 w)
        as (new & j & Ht & Hj & _ & Hc & Hh & Hs); [lia|].
      exists new, j. auto.
  - rewrite notify_backend_without_token by exact Htok. simpl.
    exists [], O. rewrite app_nil_r. repeat split; auto. lia.
Qed.

(** X5: whatever the backend answers, the outside calls of a run of
    [notify_backend] are [j] POSTs, at most [max_retries] of them, with a
    sleep of [retry_delay * a] between POST [a] and the next, and nothing
    before the first or after the last. *)
Theorem notify_backend_calls_shape cfg (sd : gmap string Py.value)
  max_retries retry_delay w :
  exists new j,
    trace (snd (notify_backend cfg sd max_retries retry_delay w)) = trace w ++ new
    /\ (j <= Z.to_nat max_retries)%nat
    /\ length (posts new) = j
    /\ calls new = calls_of_attempts cfg (make_payload cfg sd) retry_delay 1 j.
Proof.
  destruct (notify_backend_run cfg sd max_retries retry_delay w)
    as (new & j & Ht & Hj & Hc & _).
  exists new, j. split; [exact Ht|]. split; [exact Hj|]. split; [|exact Hc].
  rewrite <- posts_calls, Hc. apply posts_calls_of_attempts.
Qed.

(** X6: [notify_backend] touches nothing but the backend: environment,
    .env file and files are as before the run, and the run has consumed
    one outcome of the backend for each POST it made. *)
Theorem notify_backend_frame cfg (sd : gmap string Py.value)
  max_retries retry_delay w :
  let w' := snd (notify_backend cfg sd max_retries retry_delay w) in
  same_outside w w'
  /\ exists new,
       trace w' = trace w ++ new
       /\ forall m, http w' m = http w (length (posts new) + m)%nat.
Proof.
  destruct (notify_backend_run cfg sd max_retries retry_delay w)
    as (new & j & Ht & Hj & Hc & Hh & Hs).
  split; [exact Hs|]. exists new. split; [exact Ht|].
  intros m. rewrite <- posts_calls, Hc, posts_calls_of_attempts. apply Hh.
Qed.

(** ** More on load_config *)

Lemma blank_required_nil (env : gmap string string) :
  blank_required env = []
  <-> forall var field,
        In (var, field) required -> Py.strip (getenv env var "") <> ""%string.
Proof.
  split.
  - intros Hnil var field Hin Hs.
    assert (H : In field (blank_required env))
      by (apply blank_required_In; eauto).
    rewrite Hnil in H. destruct H.
  - intros H. destruct (blank_required env) as [|f l] eqn:Hb; [reflexivity|].
    assert (Hin : In f (blank_required env)) by (rewrite Hb; now left).
    apply blank_required_In in Hin as (var & Hin & Hs).
    destruct (H var f Hin Hs).
Qed.

(** X7: a config that [load_config] returns is complete: the five required
    fields, the backend URL and the source label are non-empty, and the
    token output path is [None] or a non-empty string.  Loading it has made
    no outside call and written no file. *)
Theorem load_config_returns_complete (w w' : world) (cfg : ZerodhaConfig) :
  load_config w = (Done cfg, w') ->
  (api_key cfg <> "" /\ api_secret cfg <> "" /\ totp_secret cfg <> ""
   /\ user_id cfg <> "" /\ password cfg <> "")%string
  /\ backend_update_url cfg <> ""%string
  /\ backend_source_label cfg <> ""%string
  /\ token_output_path cfg <> Some ""%string
  /\ trace w' = trace w
  /\ files w' = files w.
Proof.
  rewrite load_config_eq, missing_fields_required.
  set (env := environ w ∪ dotenv w).
  destruct (blank_required env) as [|f l] eqn:Hb; [|discriminate].
  intros H. inversion H; subst cfg w'. clear H.
  pose proof (proj1 (blank_required_nil env) Hb) as Hreq.
  split.
  { repeat split; simpl;
      match goal with
      | |- Py.strip (getenv env ?var "") <> _ =>
          apply (Hreq var _ ltac:(simpl; eauto 6))
      end. }
  split.
  { intros H. pose proof (backend_update_url_nonempty env) as Hn.
    rewrite H in Hn. discriminate. }
  split.
  { intros H. pose proof (backend_source_label_nonempty env) as Hn.
    rewrite H in Hn. discriminate. }
  split; [|split; reflexivity].
  simpl. destruct (String.eqb _ _) eqn:He; [discriminate|].
  intros H. inversion H as [H1]. rewrite H1 in He. discriminate.
Qed.

Lemma load_config_returns_complete_witness :
  let w := Sample.world_of Sample.env (fun _ => Returns Sample.accepted) in
  let cfg := config_of_env Sample.env in
  (api_key cfg <> "" /\ api_secret cfg <> "" /\ totp_secret cfg <> ""
   /\ user_id cfg <> "" /\ password cfg <> "")%string
  /\ backend_update_url cfg <> ""%string
  /\ backend_source_label cfg <> ""%string
  /\ token_output_path cfg <> Some ""%string
  /\ trace (set_environ (environ w ∪ dotenv w) w) = trace w
  /\ files (set_environ (environ w ∪ dotenv w) w) = files w.
Proof.
  intros w cfg.
  apply (load_config_returns_complete w (set_environ (environ w ∪ dotenv w) w) cfg).
  vm_compute. reflexivity.
Defined.

(** X8: [load_config] succeeds exactly when each of the five required
    variables has a value that is non-empty once stripped, whatever the
    optional variables hold; the config is then the one read from the
    environment completed by the .env file. *)
Theorem load_config_succeeds_iff (w : world) :
  let env := environ w ∪ dotenv w in
  ((exists cfg, fst (load_config w) = Done cfg)
   <-> forall var field,
         In (var, field) required -> Py.strip (getenv env var "") <> ""%string)
  /\ (forall cfg, fst (load_config w) = Done cfg -> cfg = config_of_env env).
Proof.
  intros env. rewrite load_config_eq, missing_fields_required. fold env.
  rewrite <- blank_required_nil.
  destruct (blank_required env) as [|f l]; simpl.
  - split; [split; eauto | intros cfg H; now inversion H].
  - split; [split; [intros [cfg H]|]; discriminate | discriminate].
Qed.

(** ** More on generate_access_token *)

(** X9: [generate_access_token] fails before it touches the file system
    when the SDK raises, when the session has no "access_token" key (a
    [KeyError]) and when the output file cannot be opened (an [OSError]):
    the files are as before; in the first two cases the SDK call is the
    only event, in the third there is the failed [open] besides. *)
Theorem generate_access_token_fails_early cfg request_token w :
  let call := EvGenerateSession (api_key cfg) request_token (api_secret cfg) in
  let sdk := kite_session w (api_key cfg) request_token (api_secret cfg) in
  let run := generate_access_token cfg request_token w in
  (forall e, sdk = inl e -> run = (Raised e, log call w))
  /\ (forall sd,
        sdk = inr sd -> sd !! "access_token"%string = None ->
        run = (Raised (KeyError "access_token"), log call w))
  /\ (forall sd v c path,
        sdk = inr sd -> sd !! "access_token"%string = Some v ->
        token_output_path cfg = Some (String c path) ->
        writable w (String c path) = false ->
        run = (Raised (OSError (String c path)),
               log (EvOpen (String c path)) (log call w)))
  /\ files (log call w) = files w.
Proof.
  intros call sdk run. subst call sdk run.
  unfold generate_access_token, generate_session, getitem, write_text.
  unfold bind, emit, lift_sum, ret, raise. simpl.
  split; [|split; [|split]].
  - intros e ->. reflexivity.
  - intros sd -> ->. reflexivity.
  - intros sd v c path -> -> -> Hw. simpl. rewrite Hw. reflexivity.
  - reflexivity.
Qed.

(** X10: whatever happens, [generate_access_token] starts with the SDK
    call, makes no POST, and changes no file other than the one at
    [token_output_path]. *)
Theorem generate_access_token_frame cfg request_token w :
  let w' := snd (generate_access_token cfg request_token w) in
  (exists rest,
     trace w'
     = trace w
       ++ EvGenerateSession (api_key cfg) request_token (api_secret cfg) :: rest
     /\ posts rest = [])
  /\ http w' = http w
  /\ environ w' = environ w
  /\ (forall path,
        token_output_path cfg <> Some path ->
        files w' !! path = files w !! path).
Proof.
  unfold generate_access_token, generate_session, getitem, write_text.
  unfold bind, emit, lift_sum, ret, raise. simpl.
  destruct (kite_session w _ _ _) as [e|sd]; simpl.
  { repeat split; auto. exists []. split; reflexivity. }
  destruct (sd !! "access_token"%string) as [v|]; simpl.
  2:{ repeat split; auto. exists []. split; reflexivity. }
  destruct (token_output_path cfg) as [[|c p]|]; simpl;
    try (repeat split; auto; exists []; split; reflexivity).
  destruct (writable w (String c p)); simpl.
  2:{ repeat split; auto. eexists. rewrite <- app_assoc. split; reflexivity. }
  destruct v; simpl;
    (split; [eexists; rewrite <- ?app_assoc; split; reflexivity|];
     split; [reflexivity|]; split; [reflexivity|];
     intros path Hp; apply lookup_insert_ne; congruence).
Qed.

(** X11: when the access token of the session is not a string (the key is
    there with [None], say) and an output path is set, the file is opened,
    and so emptied, before [write] raises its [TypeError]: the function
    raises and leaves an empty file at the path. *)
Theorem generate_access_token_truncates cfg request_token w
  (sd : gmap string Py.value) (v : Py.value) (path : string) :
  kite_session w (api_key cfg) request_token (api_secret cfg) = inr sd ->
  sd !! "access_token"%string = Some v ->
  (forall s, v <> Py.VStr s) ->
  token_output_path cfg = Some path ->
  path <> ""%string ->
  writable w path = true ->
  exists w',
    generate_access_token cfg request_token w
    = (Raised (TypeError "write() argument must be str"), w')
    /\ files w' = <[path := ""%string]> (files w).
Proof.
  intros Hsdk Hv Hns Hp Hne Hw.
  unfold generate_access_token, generate_session, getitem, write_text.
  unfold bind, emit, lift_sum, ret, raise. simpl.
  rewrite Hsdk, Hv, Hp. simpl.
  destruct path as [|c p]; [congruence|]. simpl. rewrite Hw.
  destruct v; try (eexists; split; reflexivity).
  destruct (Hns s eq_refl).
Qed.

Lemma generate_access_token_truncates_witness :
  let cfg :=
    {| api_key := "key"; api_secret := "secret";
       totp_secret := "JBSWY3DPEHPK3PXP"; user_id := "AB1234";
       password := "pw"; token_output_path := Some "token.txt"%string;
       backend_update_url := DEFAULT_BACKEND_UPDATE_URL;
       backend_source_label := "automation" |} in
  let w :=
    {| environ := ∅; dotenv := ∅;
       files := {[ "token.txt"%string := "yesterday"%string ]};
       writable := fun _ => true;
       http := fun _ => Returns Sample.accepted; chrome := None;
       login_form := fun _ _ _ => None;
       totp_now := fun _ => inr "123456"%string;
       totp_form := fun _ => inr "request_token=abc123"%string;
       kite_session := fun _ _ _ => inr {[ "access_token"%string := Py.VNone ]};
       trace := [] |} in
  exists w',
    generate_access_token cfg "abc123" w
    = (Raised (TypeError "write() argument must be str"), w')
    /\ files w' = <["token.txt"%string := ""%string]> (files w).
Proof.
  intros cfg w.
  apply (generate_access_token_truncates cfg "abc123" w
           {[ "access_token"%string := Py.VNone ]} Py.VNone "token.txt").
  - reflexivity.
  - reflexivity.
  - discriminate.
  - reflexivity.
  - discriminate.
  - reflexivity.
Defined.

(** ** Strings: split and substring *)

Lemma append_cons (c : ascii) (a b : string) :
  (String c a ++ b)%string = String c (a ++ b)%string.
Proof. reflexivity. Qed.

Lemma append_nil_l (s : string) : (""%string ++ s)%string = s.
Proof. reflexivity. Qed.

Lemma append_nil_r (s : string) : (s ++ "")%string = s.
Proof. induction s as [|c s IH]; [reflexivity|]. now rewrite append_cons, IH. Qed.

Lemma append_assoc (a b c : string) :
  ((a ++ b) ++ c)%string = (a ++ (b ++ c))%string.
Proof.
  induction a as [|x a IH]; [reflexivity|]. now rewrite !append_cons, IH.
Qed.

Lemma string_of_list_ascii_app (l1 l2 : list ascii) :
  string_of_list_ascii (l1 ++ l2)
  = (string_of_list_ascii l1 ++ string_of_list_ascii l2)%string.
Proof.
  induction l1 as [|c l1 IH]; [reflexivity|]. simpl. now rewrite append_cons, IH.
Qed.

Lemma string_of_rev_cons (c : ascii) (cur : list ascii) (s : string) :
  (string_of_list_ascii (rev (c :: cur)) ++ s)%string
  = (string_of_list_ascii (rev cur) ++ String c s)%string.
Proof.
  simpl. rewrite string_of_list_ascii_app, append_assoc. reflexivity.
Qed.

Lemma prefix_nil (s : string) : String.prefix "" s = true.
Proof. destruct s; reflexivity. Qed.

Lemma prefix_app (sub a b : string) :
  String.prefix sub a = true -> String.prefix sub (a ++ b) = true.
Proof.
  revert a. induction sub as [|x sub IH]; intros a H; [apply prefix_nil|].
  destruct a as [|y a]; [discriminate|]. rewrite append_cons. simpl in *.
  destruct (Ascii.ascii_dec x y); [auto | discriminate].
Qed.

Lemma prefix_app_self (sub b : string) : String.prefix sub (sub ++ b) = true.
Proof.
  induction sub as [|x sub IH]; [apply prefix_nil|].
  rewrite append_cons. simpl. destruct (Ascii.ascii_dec x x); [exact IH | congruence].
Qed.

Lemma contains_cons (sub : string) (c : ascii) (s : string) :
  Py.contains sub (String c s)
  = String.prefix sub (String c s) || Py.contains sub s.
Proof. reflexivity. Qed.

Lemma contains_app_l (sub a b : string) :
  Py.contains sub a = true -> Py.contains sub (a ++ b) = true.
Proof.
  induction a as [|c a IH]; intros H.
  - simpl in H. rewrite orb_false_r in H.
    destruct sub; [|discriminate]. destruct b; reflexivity.
  - rewrite append_cons, contains_cons. rewrite contains_cons in H.
    apply orb_true_iff in H as [H|H]; apply orb_true_iff.
    + left. apply (prefix_app sub (String c a) b H).
    + right. auto.
Qed.

Lemma contains_app_r (sub a b : string) :
  Py.contains sub b = true -> Py.contains sub (a ++ b) = true.
Proof.
  intros H. induction a as [|c a IH]; [exact H|].
  rewrite append_cons, contains_cons, IH. apply orb_true_r.
Qed.

Lemma prefix_amp (c : ascii) (s : string) :
  String.prefix "&" (String c s)
  = if Ascii.ascii_dec "&"%char c then true else false.
Proof.
  change (String.prefix "&" (String c s))
    with (if Ascii.ascii_dec "&"%char c then String.prefix "" s else false).
  destruct (Ascii.ascii_dec "&"%char c); [apply prefix_nil | reflexivity].
Qed.

Lemma split_go_amp_cons (c : ascii) (s : string) (cur : list ascii) :
  Py.split_go "&" O cur (String c s)
  = if Ascii.ascii_dec "&"%char c
    then string_of_list_ascii (rev cur) :: Py.split_go "&" O [] s
    else Py.split_go "&" O (c :: cur) s.
Proof.
  change (Py.split_go "&" O cur (String c s))
    with (if String.prefix "&" (String c s)
          then string_of_list_ascii (rev cur) :: Py.split_go "&" O [] s
          else Py.split_go "&" O (c :: cur) s).
  rewrite prefix_amp. destruct (Ascii.ascii_dec "&"%char c); reflexivity.
Qed.

Lemma amp_free_cons (c : ascii) (s : string) :
  amp_free (String c s) <-> c <> "&"%char /\ amp_free s.
Proof.
  unfold amp_free. rewrite contains_cons, prefix_amp.
  destruct (Ascii.ascii_dec "&"%char c) as [<-|Hne].
  - simpl. split; [discriminate | intros [H _]; congruence].
  - simpl. split; [intros H; split; [congruence | exact H] | tauto].
Qed.

Lemma amp_free_app (a b : string) :
  amp_free a -> amp_free b -> amp_free (a ++ b).
Proof.
  induction a as [|c a IH]; intros Ha Hb; [exact Hb|].
  rewrite append_cons. apply amp_free_cons. apply amp_free_cons in Ha.
  tauto.
Qed.

Lemma amp_free_snoc (cur : list ascii) (c : ascii) :
  amp_free (string_of_list_ascii (rev cur)) -> c <> "&"%char ->
  amp_free (string_of_list_ascii (rev (c :: cur))).
Proof.
  intros Hc Hne. simpl. rewrite string_of_list_ascii_app.
  apply amp_free_app; [exact Hc|]. apply amp_free_cons. split; [exact Hne|].
  reflexivity.
Qed.

Lemma split_go_cons_skip (sep : string) (k : nat) cur (c : ascii) (s : string) :
  Py.split_go sep (S k) cur (String c s) = Py.split_go sep k cur s.
Proof. reflexivity. Qed.

Lemma split_go_cons (sep : string) cur (c : ascii) (s : string) :
  Py.split_go sep O cur (String c s)
  = if String.prefix sep (String c s)
    then string_of_list_ascii (rev cur)
           :: Py.split_go sep (Nat.pred (String.length sep)) [] s
    else Py.split_go sep O (c :: cur) s.
Proof. reflexivity. Qed.

(** The pieces of a split hold only characters of the string. *)
Lemma split_go_amp_free (sep : string) (s : string) :
  forall skip cur,
    amp_free (string_of_list_ascii (rev cur)) -> amp_free s ->
    Forall amp_free (Py.split_go sep skip cur s).
Proof.
  induction s as [|c s IH]; intros skip cur Hc Hs.
  - constructor; [exact Hc | constructor].
  - apply amp_free_cons in Hs as [Hne Hs].
    destruct skip as [|k];
      [|rewrite split_go_cons_skip; apply IH; assumption].
    rewrite split_go_cons.
    destruct (String.prefix sep (String c s)).
    + constructor; [exact Hc|]. apply IH; [reflexivity | exact Hs].
    + apply IH; [apply amp_free_snoc; assumption | exact Hs].
Qed.

(** The pieces of a split on "&" have no "&". *)
Lemma split_amp_pieces (s : string) :
  forall cur,
    amp_free (string_of_list_ascii (rev cur)) ->
    Forall amp_free (Py.split_go "&" O cur s).
Proof.
  induction s as [|c s IH]; intros cur Hc.
  - constructor; [exact Hc | constructor].
  - rewrite split_go_amp_cons.
    destruct (Ascii.ascii_dec "&"%char c) as [<-|Hne].
    + constructor; [exact Hc|]. apply IH. reflexivity.
    + apply IH. apply amp_free_snoc; [exact Hc | congruence].
Qed.

(** A piece of a split on "&" is a part of the string. *)
Lemma split_amp_substring (sub : string) (s : string) :
  forall cur p,
    In p (Py.split_go "&" O cur s) ->
    Py.contains sub p = true ->
    Py.contains sub (string_of_list_ascii (rev cur) ++ s) = true.
Proof.
  induction s as [|c s IH]; intros cur p Hin Hp.
  - destruct Hin as [<-|[]]. now rewrite append_nil_r.
  - rewrite split_go_amp_cons in Hin.
    destruct (Ascii.ascii_dec "&"%char c) as [<-|Hne].
    + destruct Hin as [<-|Hin].
      * now apply contains_app_l.
      * apply contains_app_r. rewrite contains_cons.
        apply orb_true_iff. right.
        apply (IH [] p Hin Hp).
    + rewrite <- string_of_rev_cons. apply (IH (c :: cur) p Hin Hp).
Qed.

(** Splitting on "&" splits at every "&". *)
Lemma split_amp_app (a b : string) :
  forall cur,
    Py.split_go "&" O cur (a ++ String "&" b)
    = Py.split_go "&" O cur a ++ Py.split_go "&" O [] b.
Proof.
  induction a as [|c a IH]; intros cur.
  - rewrite append_nil_l, split_go_amp_cons.
    destruct (Ascii.ascii_dec "&"%char "&"%char); [reflexivity | congruence].
  - rewrite append_cons, !split_go_amp_cons.
    destruct (Ascii.ascii_dec "&"%char c) as [<-|Hne].
    + rewrite IH. reflexivity.
    + apply IH.
Qed.

(** A string without the separator is one piece. *)
Lemma split_go_no_sep (sep s : string) :
  forall cur,
    Py.contains sep s = false ->
    Py.split_go sep O cur s = [(string_of_list_ascii (rev cur) ++ s)%string].
Proof.
  induction s as [|c s IH]; intros cur H.
  - simpl. now rewrite append_nil_r.
  - rewrite contains_cons in H. apply orb_false_iff in H as [Hp Hc].
    rewrite split_go_cons, Hp, (IH (c :: cur) Hc), string_of_rev_cons.
    reflexivity.
Qed.

(** Jumping over the rest of a separator. *)
Lemma split_go_skip (sep u t : string) :
  forall cur,
    Py.split_go sep (String.length u) cur (u ++ t) = Py.split_go sep O cur t.
Proof.
  induction u as [|c u IH]; intros cur; [reflexivity|].
  rewrite append_cons. cbn [String.length]. rewrite split_go_cons_skip. apply IH.
Qed.

(** ** login_and_get_request_token *)

Lemma contains_prefix (sub s : string) :
  String.prefix sub s = true -> Py.contains sub s = true.
Proof. intros H. destruct s; simpl in *; rewrite H; reflexivity. Qed.

Lemma last_Forall {A} (P : A -> Prop) (l : list A) (d : A) :
  Forall P l -> P d -> P (List.last l d).
Proof.
  intros Hl Hd. induction Hl as [|x l Hx Hl IH]; [exact Hd|].
  destruct l; [exact Hx | exact IH].
Qed.

Lemma find_request_token_some (parts : list string) (tok : string) :
  find_request_token parts = Some tok ->
  exists part,
    In part parts
    /\ Py.contains "request_token=" part = true
    /\ tok = List.last (Py.split "request_token=" part) ""%string.
Proof.
  induction parts as [|p parts IH]; [discriminate|].
  cbn [find_request_token].
  destruct (Py.contains "request_token=" p) eqn:Hp.
  - intros H. inversion H. exists p. split; [now left | auto].
  - intros H. destruct (IH H) as (part & Hin & Hc & Ht).
    exists part. split; [now right | auto].
Qed.

Lemma find_request_token_first (parts : list string) (tok : string) :
  find_request_token parts = Some tok ->
  exists before part after,
    parts = before ++ part :: after
    /\ Forall (fun p => Py.contains "request_token=" p = false) before
    /\ Py.contains "request_token=" part = true
    /\ tok = List.last (Py.split "request_token=" part) ""%string.
Proof.
  induction parts as [|p parts IH]; [discriminate|].
  cbn [find_request_token].
  destruct (Py.contains "request_token=" p) eqn:Hp.
  - intros H. inversion H. exists [], p, parts. repeat split; auto.
  - intros H. destruct (IH H) as (before & part & after & -> & Hb & Hc & Ht).
    exists (p :: before), part, after. repeat split; auto.
Qed.

Lemma find_request_token_skip (before rest : list string) :
  Forall (fun p => Py.contains "request_token=" p = false) before ->
  find_request_token (before ++ rest) = find_request_token rest.
Proof.
  induction 1 as [|p before Hp _ IH]; [reflexivity|].
  cbn [app find_request_token]. now rewrite Hp.
Qed.

(** The pieces of a URL without "request_token=" do not have it either. *)
Lemma pieces_without_token (s : string) :
  Py.contains "request_token=" s = false ->
  Forall (fun p => Py.contains "request_token=" p = false) (Py.split "&" s).
Proof.
  intros Hs. apply List.Forall_forall. intros p Hin.
  destruct (Py.contains "request_token=" p) eqn:Hp; [|reflexivity].
  pose proof (split_amp_substring "request_token=" s [] p Hin Hp) as H.
  simpl in H. rewrite append_nil_l in H. congruence.
Qed.

(** The token of a segment "request_token=tok". *)
Lemma token_of_segment (tok : string) :
  Py.contains "request_token=" tok = false ->
  List.last (Py.split "request_token=" ("request_token=" ++ tok)) ""%string
  = tok.
Proof.
  intros Ht. unfold Py.split.
  change ("request_token=" ++ tok)%string
    with (String "r" ("equest_token=" ++ tok)%string).
  rewrite split_go_cons.
  change (String "r" ("equest_token=" ++ tok)%string)
    with ("request_token=" ++ tok)%string.
  rewrite prefix_app_self.
  change (Nat.pred (String.length "request_token="))
    with (String.length "equest_token=").
  rewrite split_go_skip, (split_go_no_sep _ _ [] Ht).
  reflexivity.
Qed.

Lemma lower_cons (c : ascii) (s : string) :
  Py.lower (String c s) = String (Py.lower_char c) (Py.lower s).
Proof. reflexivity. Qed.

Lemma prefix_lower (sub s : string) :
  String.prefix sub s = true ->
  String.prefix (Py.lower sub) (Py.lower s) = true.
Proof.
  revert s. induction sub as [|x sub IH]; intros s H; [apply prefix_nil|].
  destruct s as [|y s]; [discriminate|]. rewrite !lower_cons. simpl in *.
  destruct (Ascii.ascii_dec x y) as [<-|]; [|discriminate].
  destruct (Ascii.ascii_dec (Py.lower_char x) (Py.lower_char x));
    [auto | congruence].
Qed.

Lemma contains_lower (sub s : string) :
  Py.contains sub s = true ->
  Py.contains (Py.lower sub) (Py.lower s) = true.
Proof.
  induction s as [|c s IH]; intros H.
  - simpl in *. rewrite orb_false_r in *.
    now apply (prefix_lower sub "").
  - rewrite lower_cons, contains_cons. rewrite contains_cons in H.
    apply orb_true_iff in H as [H|H]; apply orb_true_iff.
    + left. apply (prefix_lower sub (String c s) H).
    + right. auto.
Qed.

(** A URL with "request_token=" in it passes the wait of line 129. *)
Lemma wait_passes (url : string) :
  Py.contains "request_token=" url = true ->
  Py.contains "request_token=" (Py.lower url) = true.
Proof. apply (contains_lower "request_token=" url). Qed.

(** A token is found only in a URL that has "request_token=". *)
Lemma find_request_token_in_url (url tok : string) :
  find_request_token (Py.split "&" url) = Some tok ->
  Py.contains "request_token=" url = true.
Proof.
  intros H. destruct (find_request_token_some _ _ H) as (part & Hin & Hc & _).
  apply (split_amp_substring "request_token=" url [] part Hin Hc).
Qed.

Ltac login_cases w cfg :=
  unfold login_and_get_request_token, selenium_driver, generate_totp,
    try_finally, bind, emit, lift_sum, ret, raise; simpl;
  destruct (chrome w) as [?e|] eqn:?Hchrome; simpl;
  [|destruct (login_form w (KITE_LOGIN_URL (api_key cfg)) (user_id cfg)
                         (password cfg)) as [?e|] eqn:?Hform; simpl;
    [|destruct (totp_now w (totp_secret cfg)) as [?e|code] eqn:?Htotp; simpl;
      [|destruct (totp_form w code) as [?e|url] eqn:?Hurl; simpl;
        [|destruct (Py.contains "request_token=" (Py.lower url)) eqn:?Hwait;
          simpl;
          [destruct (find_request_token (Py.split "&" url))
             as [[|?c ?t]|] eqn:?Hfind; simpl|]]]]].

(** X12: the browser is quit whenever it was started, whether the login
    returns a token or raises: the events of a login are the start of the
    driver, the steps of the session, and [driver.quit()] last.  When the
    driver fails to start there is nothing to quit.  A login touches
    neither the files nor the backend. *)
Theorem login_quits_browser cfg w :
  let run := login_and_get_request_token cfg w in
  (forall e, chrome w = Some e -> run = (Raised e, log EvChromeStart w))
  /\ (chrome w = None ->
      exists steps,
        trace (snd run) = trace w ++ EvChromeStart :: steps ++ [EvChromeQuit]
        /\ Forall (fun e => is_session_boundary e = false) steps
        /\ posts steps = [])
  /\ same_outside w (snd run)
  /\ http (snd run) = http w.
Proof.
  intros run. subst run. login_cases w cfg;
    (split; [intros ? [=]; subst; reflexivity|]);
    (split; [|split; [repeat split | reflexivity]]);
    try discriminate; intros _;
    rewrite <- ?app_assoc; simpl;
    try (exists [EvLoginForm (KITE_LOGIN_URL (api_key cfg)) (user_id cfg)
                             (password cfg)];
         split; [reflexivity|]; split; [repeat constructor | reflexivity]);
    (exists [EvLoginForm (KITE_LOGIN_URL (api_key cfg)) (user_id cfg)
                         (password cfg); EvTotpForm code];
     split; [reflexivity|]; split; [repeat constructor | reflexivity]).
Qed.

(** X13: a request token that the login returns is never empty and holds
    no "&": it is what follows the last "request_token=" in the first
    "&"-separated piece of the redirect URL that has "request_token=". *)
Theorem login_token_well_formed cfg w w' (tok : string) :
  login_and_get_request_token cfg w = (Done tok, w') ->
  tok <> ""%string
  /\ amp_free tok
  /\ exists code url before part after,
       totp_now w (totp_secret cfg) = inr code
       /\ totp_form w code = inr url
       /\ Py.split "&" url = before ++ part :: after
       /\ Forall (fun p => Py.contains "request_token=" p = false) before
       /\ Py.contains "request_token=" part = true
       /\ tok = List.last (Py.split "request_token=" part) ""%string.
Proof.
  login_cases w cfg; try discriminate.
  intros H. inversion H; subst tok w'. clear H.
  destruct (find_request_token_first _ _ Hfind)
    as (before & part & after & Hsplit & Hbefore & Hc & Ht).
  split; [discriminate|]. split.
  - rewrite Ht. apply last_Forall; [|reflexivity].
    apply split_go_amp_free; [reflexivity|].
    pose proof (split_amp_pieces url [] eq_refl) as Hp.
    rewrite List.Forall_forall in Hp. apply Hp.
    unfold Py.split in Hsplit. rewrite Hsplit.
    apply in_or_app. right. now left.
  - exists code, url, before, part, after. auto 6.
Qed.

Lemma login_token_well_formed_witness :
  "abc123"%string <> ""%string
  /\ amp_free "abc123"
  /\ exists code url before part after,
       totp_now (Sample.world_of Sample.env (fun _ => Returns Sample.accepted))
                (totp_secret Sample.cfg) = inr code
       /\ totp_form (Sample.world_of Sample.env (fun _ => Returns Sample.accepted))
                    code = inr url
       /\ Py.split "&" url = before ++ part :: after
       /\ Forall (fun p => Py.contains "request_token=" p = false) before
       /\ Py.contains "request_token=" part = true
       /\ "abc123"%string = List.last (Py.split "request_token=" part) ""%string.
Proof.
  eapply (login_token_well_formed Sample.cfg
            (Sample.world_of Sample.env (fun _ => Returns Sample.accepted))).
  vm_compute. reflexivity.
Defined.

(** X14: the token is read back from a redirect URL that carries it as a
    query parameter.  When the browser steps succeed and the URL is
    [head&request_token=tok] followed by nothing or by more parameters,
    where [head] has no "request_token=" and [tok] is non-empty with
    neither "&" nor "request_token=" in it, the login returns [tok], after
    the four browser events. *)
Theorem login_reads_token_back cfg w (code head tok tail : string) :
  chrome w = None ->
  login_form w (KITE_LOGIN_URL (api_key cfg)) (user_id cfg) (password cfg)
  = None ->
  totp_now w (totp_secret cfg) = inr code ->
  totp_form w code
  = inr (head ++ String "&" (("request_token=" ++ tok) ++ tail))%string ->
  Py.contains "request_token=" head = false ->
  tok <> ""%string ->
  amp_free tok ->
  Py.contains "request_token=" tok = false ->
  (tail = ""%string \/ exists rest, tail = String "&" rest) ->
  exists w',
    login_and_get_request_token cfg w = (Done tok, w')
    /\ trace w'
       = trace w
         ++ [ EvChromeStart;
              EvLoginForm (KITE_LOGIN_URL (api_key cfg)) (user_id cfg)
                          (password cfg);
              EvTotpForm code;
              EvChromeQuit ].
Proof.
  intros Hchrome Hform Htotp Hurl Hhead Hne Hamp Htok Htail.
  assert (Hseg : Py.split_go "&" O [] ("request_token=" ++ tok)
                 = [("request_token=" ++ tok)%string]).
  { rewrite split_go_no_sep; [reflexivity|].
    apply (amp_free_app "request_token=" tok); [reflexivity | exact Hamp]. }
  assert (Hfind :
    find_request_token
      (Py.split "&" (head ++ String "&" (("request_token=" ++ tok) ++ tail)))
    = Some tok).
  { unfold Py.split. rewrite split_amp_app.
    rewrite find_request_token_skip by now apply pieces_without_token.
    assert (Hpieces : exists more,
              Py.split_go "&" O [] (("request_token=" ++ tok) ++ tail)
              = ("request_token=" ++ tok)%string :: more).
    { destruct Htail as [-> | [rest ->]].
      - rewrite append_nil_r, Hseg. eauto.
      - rewrite split_amp_app, Hseg. simpl. eauto. }
    destruct Hpieces as [more ->]. cbn [find_request_token].
    rewrite (contains_prefix _ _ (prefix_app_self "request_token=" tok)).
    now rewrite token_of_segment. }
  pose proof (wait_passes _ (find_request_token_in_url _ _ Hfind)) as Hwait.
  unfold login_and_get_request_token, selenium_driver, generate_totp,
    try_finally, bind, emit, lift_sum, ret, raise. simpl.
  rewrite Hchrome. simpl. rewrite Hform. simpl. rewrite Htotp. simpl.
  rewrite Hurl. simpl. rewrite Hwait, Hfind.
  destruct tok as [|c t]; [congruence|]. simpl.
  eexists. split; [reflexivity|]. simpl. rewrite <- !app_assoc. reflexivity.
Qed.

Lemma login_reads_token_back_witness :
  exists w',
    login_and_get_request_token Sample.cfg
      (Sample.world_of Sample.env (fun _ => Returns Sample.accepted))
    = (Done "abc123"%string, w')
    /\ trace w'
       = [] ++ [ EvChromeStart;
                 EvLoginForm (KITE_LOGIN_URL "key") "AB1234" "pw";
                 EvTotpForm "123456";
                 EvChromeQuit ].
Proof.
  apply (login_reads_token_back Sample.cfg
           (Sample.world_of Sample.env (fun _ => Returns Sample.accepted))
           "123456" "https://127.0.0.1/?action=login" "abc123"
           "&status=success").
  - reflexivity.
  - reflexivity.
  - reflexivity.
  - reflexivity.
  - reflexivity.
  - discriminate.
  - reflexivity.
  - reflexivity.
  - right. eexists. reflexivity.
Defined.

(** X15: a redirect URL that yields no token.  When the URL has no
    "request_token=" in any letter case, the wait for the redirect times
    out and the login raises [TimeoutException].  When the URL has it only
    in another letter case (the wait lower-cases the URL, the parsing does
    not), or ends in "&request_token=" with an empty token, the login raises
    the [RuntimeError].  In each case the browser is quit first. *)
Theorem login_without_token cfg w (code url : string) :
  chrome w = None ->
  login_form w (KITE_LOGIN_URL (api_key cfg)) (user_id cfg) (password cfg)
  = None ->
  totp_now w (totp_secret cfg) = inr code ->
  totp_form w code = inr url ->
  let events :=
    [ EvChromeStart;
      EvLoginForm (KITE_LOGIN_URL (api_key cfg)) (user_id cfg) (password cfg);
      EvTotpForm code;
      EvChromeQuit ] in
  (Py.contains "request_token=" (Py.lower url) = false ->
   exists w',
     login_and_get_request_token cfg w
     = (Raised (OtherError "TimeoutException" ""), w')
     /\ trace w' = trace w ++ events)
  /\ (Py.contains "request_token=" (Py.lower url) = true ->
      (Py.contains "request_token=" url = false
       \/ exists head, url = (head ++ "&request_token=")%string
                       /\ Py.contains "request_token=" head = false) ->
      exists w',
        login_and_get_request_token cfg w
        = (Raised (RuntimeError "Unable to locate request_token in redirect URL"),
           w')
        /\ trace w' = trace w ++ events).
Proof.
  intros Hchrome Hform Htotp Hurl events. subst events. split.
  - intros Hwait.
    unfold login_and_get_request_token, selenium_driver, generate_totp,
      try_finally, bind, emit, lift_sum, ret, raise. simpl.
    rewrite Hchrome. simpl. rewrite Hform. simpl. rewrite Htotp. simpl.
    rewrite Hurl. simpl. rewrite Hwait. simpl.
    eexists. split; [reflexivity|]. simpl. rewrite <- !app_assoc. reflexivity.
  - intros Hwait Hno.
    assert (Hfind : find_request_token (Py.split "&" url) = None
                    \/ find_request_token (Py.split "&" url) = Some ""%string).
    { destruct Hno as [Hno | (head & -> & Hhead)].
      - left. rewrite <- (app_nil_r (Py.split "&" url)).
        now rewrite find_request_token_skip by now apply pieces_without_token.
      - right. unfold Py.split.
        change (head ++ "&request_token=")%string
          with (head ++ String "&" "request_token=")%string.
        rewrite split_amp_app.
        rewrite find_request_token_skip by now apply pieces_without_token.
        reflexivity. }
    unfold login_and_get_request_token, selenium_driver, generate_totp,
      try_finally, bind, emit, lift_sum, ret, raise. simpl.
    rewrite Hchrome. simpl. rewrite Hform. simpl. rewrite Htotp. simpl.
    rewrite Hurl. simpl. rewrite Hwait.
    destruct Hfind as [-> | ->]; simpl;
      (eexists; split; [reflexivity|]; simpl; rewrite <- !app_assoc; reflexivity).
Qed.

Lemma login_without_token_witness :
  let at_url (url : string) :=
    {| environ := ∅; dotenv := ∅; files := ∅;
       writable := fun _ => true;
       http := fun _ => Returns Sample.accepted; chrome := None;
       login_form := fun _ _ _ => None;
       totp_now := fun _ => inr "123456"%string;
       totp_form := fun _ => inr url;
       kite_session := fun _ _ _ => inr Sample.session;
       trace := [] |} in
  let events :=
    [ EvChromeStart;
      EvLoginForm (KITE_LOGIN_URL "key") "AB1234" "pw";
      EvTotpForm "123456";
      EvChromeQuit ] in
  (exists w',
     login_and_get_request_token Sample.cfg
       (at_url "https://kite.zerodha.com/connect/login?error=denied")
     = (Raised (OtherError "TimeoutException" ""), w')
     /\ trace w' = [] ++ events)
  /\ (exists w',
        login_and_get_request_token Sample.cfg
          (at_url "https://127.0.0.1/?status=success&REQUEST_TOKEN=abc123")
        = (Raised (RuntimeError "Unable to locate request_token in redirect URL"),
           w')
        /\ trace w' = [] ++ events).
Proof.
  intros at_url events. split.
  - destruct (login_without_token Sample.cfg
                (at_url "https://kite.zerodha.com/connect/login?error=denied")
                "123456" "https://kite.zerodha.com/connect/login?error=denied")
      as [H _]; try reflexivity.
    apply H. reflexivity.
  - destruct (login_without_token Sample.cfg
                (at_url "https://127.0.0.1/?status=success&REQUEST_TOKEN=abc123")
                "123456" "https://127.0.0.1/?status=success&REQUEST_TOKEN=abc123")
      as [_ H]; try reflexivity.
    apply H; [reflexivity | left; reflexivity].
Defined.

(** ** main *)

Lemma load_config_returns_path (env : gmap string string) :
  token_output_path (config_of_env env) <> Some ""%string.
Proof.
  simpl. destruct (String.eqb _ _) eqn:He; [discriminate|].
  intros H. inversion H as [H1]. rewrite H1 in He. discriminate.
Qed.

Lemma load_config_ok (w : world) :
  blank_required (environ w ∪ dotenv w) = [] ->
  load_config w
  = (Done (config_of_env (environ w ∪ dotenv w)),
     set_environ (environ w ∪ dotenv w) w).
Proof.
  intros H. rewrite load_config_eq, missing_fields_required, H. reflexivity.
Qed.

Lemma login_ok cfg w (code url : string) (c : ascii) (t : string) :
  chrome w = None ->
  login_form w (KITE_LOGIN_URL (api_key cfg)) (user_id cfg) (password cfg)
  = None ->
  totp_now w (totp_secret cfg) = inr code ->
  totp_form w code = inr url ->
  find_request_token (Py.split "&" url) = Some (String c t) ->
  login_and_get_request_token cfg w
  = (Done (String c t),
     log EvChromeQuit
       (log (EvTotpForm code)
          (log (EvLoginForm (KITE_LOGIN_URL (api_key cfg)) (user_id cfg)
                            (password cfg))
             (log EvChromeStart w)))).
Proof.
  intros Hchrome Hform Htotp Hurl Hfind.
  pose proof (wait_passes _ (find_request_token_in_url _ _ Hfind)) as Hwait.
  unfold login_and_get_request_token, selenium_driver, generate_totp,
    try_finally, bind, emit, lift_sum, ret, raise. simpl.
  rewrite Hchrome. simpl. rewrite Hform. simpl. rewrite Htotp. simpl.
  rewrite Hurl. simpl. rewrite Hwait, Hfind. reflexivity.
Qed.

Lemma generate_access_token_ok cfg request_token w
  (sd : gmap string Py.value) (tok : string) :
  kite_session w (api_key cfg) request_token (api_secret cfg) = inr sd ->
  sd !! "access_token"%string = Some (Py.VStr tok) ->
  (forall c p, token_output_path cfg = Some (String c p) ->
               writable w (String c p) = true) ->
  generate_access_token cfg request_token w
  = (Done sd,
     after_write cfg tok
       (log (EvGenerateSession (api_key cfg) request_token (api_secret cfg)) w)).
Proof.
  intros Hsdk Htok Hw.
  unfold generate_access_token, generate_session, getitem, write_text, after_write.
  unfold bind, emit, lift_sum, ret. simpl. rewrite Hsdk, Htok. simpl.
  destruct (token_output_path cfg) as [[|c p]|]; try reflexivity.
  simpl. rewrite (Hw c p eq_refl). reflexivity.
Qed.

(** X16: the whole pipeline.  When the required variables are set, the
    browser steps succeed and the redirect URL yields a request token, the
    SDK returns a session with a non-empty string token, the output file
    (if one is configured) can be written, and the backend answers the
    first POST with an [ok] response whose body decodes, [main] returns;
    its outside calls are, in this order: the browser session from start
    to quit, the SDK exchange with the request token, the write of the
    token, and one POST of that session to the backend. *)
Theorem main_pipeline (w : world) (code url : string) (c : ascii) (t : string)
  (sd : gmap string Py.value) (tok : string) (r : Response) (decoded : string) :
  let env := environ w ∪ dotenv w in
  let cfg := config_of_env env in
  let request_token := String c t in
  blank_required env = [] ->
  chrome w = None ->
  login_form w (KITE_LOGIN_URL (api_key cfg)) (user_id cfg) (password cfg)
  = None ->
  totp_now w (totp_secret cfg) = inr code ->
  totp_form w code = inr url ->
  find_request_token (Py.split "&" url) = Some request_token ->
  kite_session w (api_key cfg) request_token (api_secret cfg) = inr sd ->
  sd !! "access_token"%string = Some (Py.VStr tok) ->
  tok <> ""%string ->
  (forall c p, token_output_path cfg = Some (String c p) ->
               writable w (String c p) = true) ->
  http w O = Returns r ->
  ok r = true ->
  json r = inr decoded ->
  exists w' new,
    main w = (Done tt, w')
    /\ trace w' = trace w ++ new
    /\ calls new
       = [ EvChromeStart;
           EvLoginForm (KITE_LOGIN_URL (api_key cfg)) (user_id cfg) (password cfg);
           EvTotpForm code;
           EvChromeQuit;
           EvGenerateSession (api_key cfg) request_token (api_secret cfg) ]
         ++ write_calls cfg tok
         ++ [ EvPost (backend_update_url cfg) (make_payload cfg sd) 20 ]
    /\ files w'
       = match token_output_path cfg with
         | Some path => <[path := tok]> (files w)
         | None => files w
         end.
Proof.
  intros env cfg request_token Hblank Hchrome Hform Htotp Hurl Hfind Hsdk Htok
    Hne Hw Hhttp Hok Hjson.
  unfold main. unfold bind at 1. rewrite (load_config_ok w Hblank).
  fold env. fold cfg.
  unfold bind at 1. unfold print at 1, emit at 1.
  unfold bind at 1.
  match goal with
  | |- context [login_and_get_request_token cfg ?w1] =>
      rewrite (login_ok cfg w1 code url c t Hchrome Hform Htotp Hurl Hfind)
  end.
  unfold bind at 1. unfold print at 1, emit at 1.
  unfold bind at 1.
  match goal with
  | |- context [generate_access_token cfg (String c t) ?w1] =>
      rewrite (generate_access_token_ok cfg (String c t) w1 sd tok Hsdk Htok Hw)
  end.
  unfold bind at 1. unfold print at 1, emit at 1.
  unfold bind at 1.
  erewrite (notify_backend_first_ok cfg sd default_max_retries
              default_retry_delay _ r decoded).
  - unfold print, emit, after_write, write_calls.
    pose proof (load_config_returns_path env) as Hpath. fold cfg in Hpath.
    destruct (token_output_path cfg) as [[|c' p]|]; [congruence| |];
      (eexists; eexists; split; [reflexivity|]);
      simpl; rewrite <- ?app_assoc; simpl;
      (split; [reflexivity|]); split; reflexivity.
  - unfold dict_get. rewrite Htok. simpl. destruct tok; [congruence | reflexivity].
  - unfold default_max_retries. lia.
  - unfold after_write. destruct (token_output_path cfg) as [[|c' p]|]; exact Hhttp.
  - exact Hok.
  - exact Hjson.
Qed.

Lemma main_pipeline_witness :
  let w := Sample.world_of Sample.env (fun _ => Returns Sample.accepted) in
  exists w' new,
    main w = (Done tt, w')
    /\ trace w' = trace w ++ new
    /\ calls new
       = [ EvChromeStart;
           EvLoginForm (KITE_LOGIN_URL "key") "AB1234" "pw";
           EvTotpForm "123456";
           EvChromeQuit;
           EvGenerateSession "key" "abc123" "secret" ]
         ++ []
         ++ [ Sample.post ]
    /\ files w' = files w.
Proof.
  intros w.
  apply (main_pipeline w "123456"
           "https://127.0.0.1/?action=login&request_token=abc123&status=success"
           "a" "bc123" Sample.session "tok" Sample.accepted "{}").
  - vm_compute. reflexivity.
  - reflexivity.
  - reflexivity.
  - reflexivity.
  - reflexivity.
  - reflexivity.
  - reflexivity.
  - reflexivity.
  - discriminate.
  - intros c p H. vm_compute in H. discriminate.
  - reflexivity.
  - reflexivity.
  - reflexivity.
Defined.

(** The events of a login, whatever its outcome. *)
Lemma login_events cfg w :
  exists new,
    trace (snd (login_and_get_request_token cfg w)) = trace w ++ new
    /\ posts new = []
    /\ (forall tok, fst (login_and_get_request_token cfg w) = Done tok ->
                    In EvChromeQuit new)
    /\ kite_session (snd (login_and_get_request_token cfg w)) = kite_session w
    /\ http (snd (login_and_get_request_token cfg w)) = http w.
Proof.
  login_cases w cfg; rewrite <- ?app_assoc; simpl;
    (eexists; split; [reflexivity|]; split; [reflexivity|];
     split; [|split; reflexivity]);
    intros tok H; try discriminate.
  simpl. tauto.
Qed.

(** The events of the token exchange, whatever its outcome. *)
Lemma generate_access_token_events cfg request_token w :
  exists rest,
    trace (snd (generate_access_token cfg request_token w))
    = trace w
      ++ EvGenerateSession (api_key cfg) request_token (api_secret cfg) :: rest
    /\ posts rest = []
    /\ (forall sd, fst (generate_access_token cfg request_token w) = Done sd ->
                   kite_session w (api_key cfg) request_token (api_secret cfg)
                   = inr sd)
    /\ http (snd (generate_access_token cfg request_token w)) = http w.
Proof.
  unfold generate_access_token, generate_session, getitem, write_text.
  unfold bind, emit, lift_sum, ret, raise. simpl.
  destruct (kite_session w _ _ _) as [e|sd]; simpl.
  { exists []. repeat split; auto. discriminate. }
  destruct (sd !! "access_token"%string) as [v|]; simpl.
  2:{ exists []. repeat split; auto. discriminate. }
  destruct (token_output_path cfg) as [[|c p]|]; simpl;
    try (exists []; repeat split; auto; intros ? [=]; congruence).
  destruct (writable w (String c p)); simpl.
  2:{ eexists. rewrite <- app_assoc. repeat split; auto. discriminate. }
  destruct v; simpl;
    (eexists; rewrite <- ?app_assoc; split; [reflexivity|];
     split; [reflexivity|]; split; [|reflexivity];
     intros ? [=]; congruence).
Qed.

(** The POSTs of a run of [notify_backend] carry its payload, and there is
    none without a token. *)
Lemma notify_backend_events cfg (sd : gmap string Py.value) max_retries retry_delay w :
  exists new,
    trace (snd (notify_backend cfg sd max_retries retry_delay w)) = trace w ++ new
    /\ Forall (fun e => is_post e = true ->
                        e = EvPost (backend_update_url cfg) (make_payload cfg sd) 20
                        /\ Py.truthy (dict_get sd "access_token") = true) new.
Proof.
  destruct (Py.truthy (dict_get sd "access_token")) eqn:Htok.
  - rewrite notify_backend_with_token by exact Htok. rewrite snd_bind_flow.
    destruct (for_attempts_trace cfg (make_payload cfg sd) max_retries
                retry_delay (range 1 (max_retries + 1)) w)
      as (new & Ht & Hp & _).
    exists new. split; [exact Ht|].
    eapply Forall_impl; [exact Hp|]. simpl. auto.
  - rewrite notify_backend_without_token by exact Htok.
    exists []. simpl. rewrite app_nil_r. split; [reflexivity | constructor].
Qed.

Lemma In_after_no_posts (P M before after : list event) (x : event) :
  posts P = [] -> is_post x = true ->
  P ++ M = before ++ x :: after ->
  (forall y, In y P -> In y before) /\ In x M.
Proof.
  revert before. induction P as [|p P IH]; intros before HP Hx Heq.
  - simpl in Heq. subst M. split; [intros y []|].
    apply in_or_app. right. now left.
  - assert (Hp : is_post p = false /\ posts P = []).
    { unfold posts in HP. simpl in HP. destruct (is_post p); [discriminate|].
      split; [reflexivity | exact HP]. }
    destruct Hp as [Hp HP'].
    destruct before as [|b before]; simpl in Heq; inversion Heq; subst.
    + congruence.
    + destruct (IH before HP' Hx H1) as [Hin HM].
      split; [|exact HM]. intros y [<-|Hy]; [now left | right; auto].
Qed.

Lemma no_post_in (t : list event) (x : event) :
  posts t = [] -> is_post x = true -> ~ In x t.
Proof.
  intros Ht Hx Hin.
  assert (H : In x (posts t)) by (apply List.filter_In; auto).
  rewrite Ht in H. destruct H.
Qed.

(** X17: [main] posts nothing but the session of this run.  Every POST in
    the trace of [main] goes to the configured backend URL with a timeout
    of 20 seconds, and its body is the payload of a session that the SDK
    returned in this run, with a truthy access token, for the config read
    from the environment; before it, the browser was quit and the SDK
    exchange was made. *)
Theorem main_posts_the_session (w : world) (before after : list event)
  (url : string) (body : payload_t) (timeout : Z) :
  let cfg := config_of_env (environ w ∪ dotenv w) in
  trace (snd (main w)) = trace w ++ before ++ EvPost url body timeout :: after ->
  exists request_token sd,
    kite_session w (api_key cfg) request_token (api_secret cfg) = inr sd
    /\ Py.truthy (dict_get sd "access_token") = true
    /\ url = backend_update_url cfg
    /\ body = make_payload cfg sd
    /\ timeout = 20
    /\ In EvChromeQuit before
    /\ In (EvGenerateSession (api_key cfg) request_token (api_secret cfg)) before.
Proof.
  intros cfg. subst cfg. unfold main. unfold bind at 1.
  rewrite load_config_eq, missing_fields_required.
  set (env := environ w ∪ dotenv w).
  remember (config_of_env env) as cfg eqn:Hcfg.
  destruct (blank_required env) as [|f l].
  2:{ simpl. intros H. rewrite <- (app_nil_r (trace w)) in H at 1.
      apply app_inv_head in H. destruct before; discriminate. }
  unfold bind at 1. unfold print at 1, emit at 1. unfold bind at 1.
  set (w1 := log (EvPrint "Starting automated Zerodha login...")
                 (set_environ env w)).
  destruct (login_events cfg w1) as (L & HtL & HpL & HquitL & HkL & HhL).
  destruct (login_and_get_request_token cfg w1) as [[rt|e] w2];
    cbn [fst snd] in *.
  assert (Htr2 : trace w2
                 = trace w ++ EvPrint "Starting automated Zerodha login..." :: L).
  { rewrite HtL. subst w1. simpl. rewrite <- app_assoc. reflexivity. }
  2:{ assert (Htr2 : trace w2
                     = trace w ++ EvPrint "Starting automated Zerodha login..." :: L).
      { rewrite HtL. subst w1. simpl. rewrite <- app_assoc. reflexivity. }
      intros H. rewrite Htr2 in H.
      apply app_inv_head in H.
      exfalso. apply (no_post_in (EvPrint "Starting automated Zerodha login..." :: L)
                        (EvPost url body timeout)); [exact HpL | reflexivity |].
      rewrite H. apply in_or_app. right. now left. }
  specialize (HquitL rt eq_refl).
  unfold bind at 1. unfold print at 1, emit at 1. unfold bind at 1.
  set (w3 := log (EvPrint ("Request token received: " ++ rt)%string) w2).
  destruct (generate_access_token_events cfg rt w3) as (G & HtG & HpG & HsdG & HhG).
  assert (Hpre : forall M,
            trace w ++ (EvPrint "Starting automated Zerodha login..." :: L
                        ++ EvPrint ("Request token received: " ++ rt)%string
                        :: EvGenerateSession (api_key cfg) rt (api_secret cfg)
                        :: G) ++ M
            = trace w ++ before ++ EvPost url body timeout :: after ->
            In EvChromeQuit before
            /\ In (EvGenerateSession (api_key cfg) rt (api_secret cfg)) before
            /\ In (EvPost url body timeout) M).
  { intros M H. apply app_inv_head in H.
    apply In_after_no_posts in H; [|  | reflexivity].
    - destruct H as [Hin HM]. split; [|split; [|exact HM]]; apply Hin.
      + right. apply in_or_app. now left.
      + right. apply in_or_app. right. right. now left.
    - unfold posts. simpl. rewrite List.filter_app. fold (posts L). rewrite HpL.
      simpl. exact HpG. }
  assert (Htr3 : trace w3 = trace w ++ EvPrint "Starting automated Zerodha login..."
                             :: L ++ [EvPrint ("Request token received: " ++ rt)%string]).
  { subst w3. simpl. rewrite Htr2, <- app_assoc. reflexivity. }
  destruct (generate_access_token cfg rt w3) as [[sd|e] w4];
    cbn [fst snd] in *.
  2:{ intros H. rewrite HtG, Htr3 in H.
      exfalso. destruct (Hpre [] ) as (_ & _ & []).
      rewrite <- H. rewrite <- !app_assoc. simpl. rewrite <- !app_assoc.
      simpl. rewrite app_nil_r. reflexivity. }
  specialize (HsdG sd eq_refl).
  assert (Hk : kite_session w (api_key cfg) rt (api_secret cfg) = inr sd).
  { rewrite <- HsdG. subst w3. simpl. rewrite HkL. reflexivity. }
  unfold bind at 1. unfold print at 1, emit at 1. unfold bind at 1.
  set (w5 := log (EvPrint "Access token generated successfully.") w4).
  destruct (notify_backend_events cfg sd default_max_retries
              default_retry_delay w5) as (N & HtN & HpN).
  assert (Htr5 : trace w5
                 = trace w ++ (EvPrint "Starting automated Zerodha login..." :: L
                        ++ EvPrint ("Request token received: " ++ rt)%string
                        :: EvGenerateSession (api_key cfg) rt (api_secret cfg)
                        :: G)
                   ++ [EvPrint "Access token generated successfully."]).
  { subst w5. simpl. rewrite HtG, Htr3. rewrite <- !app_assoc. simpl.
    rewrite <- !app_assoc. reflexivity. }
  assert (Hfinal : forall tail,
            trace w5 ++ N ++ tail
            = trace w ++ before ++ EvPost url body timeout :: after ->
            Forall (fun e => is_post e = false) tail ->
            exists request_token sd0,
              kite_session w (api_key cfg) request_token (api_secret cfg) = inr sd0
              /\ Py.truthy (dict_get sd0 "access_token") = true
              /\ url = backend_update_url cfg
              /\ body = make_payload cfg sd0
              /\ timeout = 20
              /\ In EvChromeQuit before
              /\ In (EvGenerateSession (api_key cfg) request_token (api_secret cfg))
                    before).
  { intros tail H Htail. rewrite Htr5, <- !app_assoc in H.
    destruct (Hpre ([EvPrint "Access token generated successfully."] ++ N ++ tail))
      as (Hq & Hg & Hin); [exact H|].
    simpl in Hin. destruct Hin as [Hin|Hin]; [discriminate|].
    apply in_app_or in Hin as [Hin|Hin].
    - rewrite List.Forall_forall in HpN.
      destruct (HpN _ Hin eq_refl) as [Heq Htok]. inversion Heq; subst.
      exists rt, sd. repeat split; auto.
    - rewrite List.Forall_forall in Htail. specialize (Htail _ Hin). discriminate. }
  destruct (notify_backend cfg sd default_max_retries default_retry_delay w5)
    as [[[]|e] w6]; cbn [fst snd] in *.
  - change (trace (snd (print "All done." w6)))
      with (trace w6 ++ [EvPrint "All done."]).
    intros Hrun. apply (Hfinal [EvPrint "All done."]).
    + rewrite <- Hrun, HtN, <- !app_assoc. reflexivity.
    + repeat constructor.
  - intros Hrun. apply (Hfinal []).
    + rewrite <- Hrun, HtN, app_nil_r. reflexivity.
    + constructor.
Qed.

Lemma main_posts_the_session_witness :
  let w := Sample.world_of Sample.env (fun _ => Returns Sample.accepted) in
  let cfg := config_of_env (environ w ∪ dotenv w) in
  exists request_token sd,
    kite_session w (api_key cfg) request_token (api_secret cfg) = inr sd
    /\ Py.truthy (dict_get sd "access_token") = true
    /\ DEFAULT_BACKEND_UPDATE_URL = backend_update_url cfg
    /\ make_payload Sample.cfg Sample.session = make_payload cfg sd
    /\ 20 = 20
    /\ In EvChromeQuit
          [ EvPrint "Starting automated Zerodha login...";
            EvChromeStart;
            EvLoginForm (KITE_LOGIN_URL "key") "AB1234" "pw";
            EvTotpForm "123456";
            EvChromeQuit;
            EvPrint "Request token received: abc123";
            EvGenerateSession "key" "abc123" "secret";
            EvPrint "Access token generated successfully." ]
    /\ In (EvGenerateSession (api_key cfg) request_token (api_secret cfg))
          [ EvPrint "Starting automated Zerodha login...";
            EvChromeStart;
            EvLoginForm (KITE_LOGIN_URL "key") "AB1234" "pw";
            EvTotpForm "123456";
            EvChromeQuit;
            EvPrint "Request token received: abc123";
            EvGenerateSession "key" "abc123" "secret";
            EvPrint "Access token generated successfully." ].
Proof.
  intros w cfg.
  apply (main_posts_the_session w _
           [ EvPrint "Backend token update succeeded: {}"; EvPrint "All done." ]).
  vm_compute. reflexivity.
Defined.

Lemma load_config_succeeds_iff_witness :
  let w := Sample.world_of Sample.env (fun _ => Returns Sample.accepted) in
  (exists cfg, fst (load_config w) = Done cfg)
  /\ fst (load_config w) = Done (config_of_env Sample.env).
Proof.
  intros w. destruct (load_config_succeeds_iff w) as [[_ Hok] Hcfg].
  assert (H : exists cfg, fst (load_config w) = Done cfg).
  { apply Hok. intros var field Hin. simpl in Hin.
    repeat (destruct Hin as [Hin|Hin];
            [inversion Hin; subst; vm_compute; discriminate|]).
    destruct Hin. }
  split; [exact H|]. destruct H as [cfg H]. rewrite H.
  f_equal. apply (Hcfg cfg H).
Defined.

Lemma generate_access_token_fails_early_witness :
  let refused :=
    {| environ := ∅; dotenv := ∅; files := ∅; writable := fun _ => false;
       http := fun _ => Returns Sample.accepted; chrome := None;
       login_form := fun _ _ _ => None;
       totp_now := fun _ => inr "123456"%string;
       totp_form := fun _ => inr "request_token=abc123"%string;
       kite_session := fun _ rt _ =>
         if String.eqb rt "expired"
         then inl (OtherError "TokenException" "Token is invalid")
         else if String.eqb rt "odd" then inr ∅ else inr Sample.session;
       trace := [] |} in
  let cfg :=
    {| api_key := "key"; api_secret := "secret";
       totp_secret := "JBSWY3DPEHPK3PXP"; user_id := "AB1234";
       password := "pw"; token_output_path := Some "/proc/token"%string;
       backend_update_url := DEFAULT_BACKEND_UPDATE_URL;
       backend_source_label := "automation" |} in
  generate_access_token cfg "expired" refused
  = (Raised (OtherError "TokenException" "Token is invalid"),
     log (EvGenerateSession "key" "expired" "secret") refused)
  /\ generate_access_token cfg "odd" refused
     = (Raised (KeyError "access_token"),
        log (EvGenerateSession "key" "odd" "secret") refused)
  /\ generate_access_token cfg "abc123" refused
     = (Raised (OSError "/proc/token"),
        log (EvOpen "/proc/token")
          (log (EvGenerateSession "key" "abc123" "secret") refused)).
Proof.
  intros refused cfg. split; [|split].
  - destruct (generate_access_token_fails_early cfg "expired" refused)
      as (H & _). apply (H _ eq_refl).
  - destruct (generate_access_token_fails_early cfg "odd" refused)
      as (_ & H & _). apply (H ∅); reflexivity.
  - destruct (generate_access_token_fails_early cfg "abc123" refused)
      as (_ & _ & H & _).
    apply (H Sample.session (Py.VStr "tok") "/"%char "proc/token"%string);
      reflexivity.
Defined.

Lemma generate_access_token_frame_witness :
  let w :=
    {| environ := ∅; dotenv := ∅;
       files := {[ "notes.txt"%string := "keep"%string ]};
       writable := fun _ => true;
       http := fun _ => Returns Sample.accepted; chrome := None;
       login_form := fun _ _ _ => None;
       totp_now := fun _ => inr "123456"%string;
       totp_form := fun _ => inr "request_token=abc123"%string;
       kite_session := fun _ _ _ => inr Sample.session;
       trace := [] |} in
  let cfg :=
    {| api_key := "key"; api_secret := "secret";
       totp_secret := "JBSWY3DPEHPK3PXP"; user_id := "AB1234";
       password := "pw"; token_output_path := Some "token.txt"%string;
       backend_update_url := DEFAULT_BACKEND_UPDATE_URL;
       backend_source_label := "automation" |} in
  files (snd (generate_access_token cfg "abc123" w)) !! "notes.txt"%string
  = Some "keep"%string.
Proof.
  intros w cfg.
  destruct (generate_access_token_frame cfg "abc123" w) as (_ & _ & _ & H).
  rewrite (H "notes.txt"%string); [reflexivity | discriminate].
Defined.

Lemma login_quits_browser_witness :
  let down :=
    {| environ := ∅; dotenv := ∅; files := ∅; writable := fun _ => true;
       http := fun _ => Returns Sample.accepted;
       chrome := Some (OtherError "WebDriverException" "chrome not reachable");
       login_form := fun _ _ _ => None;
       totp_now := fun _ => inr "123456"%string;
       totp_form := fun _ => inr "request_token=abc123"%string;
       kite_session := fun _ _ _ => inr Sample.session;
       trace := [] |} in
  let slow :=
    {| environ := ∅; dotenv := ∅; files := ∅; writable := fun _ => true;
       http := fun _ => Returns Sample.accepted; chrome := None;
       login_form := fun _ _ _ =>
         Some (OtherError "TimeoutException" "userid not found");
       totp_now := fun _ => inr "123456"%string;
       totp_form := fun _ => inr "request_token=abc123"%string;
       kite_session := fun _ _ _ => inr Sample.session;
       trace := [] |} in
  login_and_get_request_token Sample.cfg down
  = (Raised (OtherError "WebDriverException" "chrome not reachable"),
     log EvChromeStart down)
  /\ exists steps,
       trace (snd (login_and_get_request_token Sample.cfg slow))
       = trace slow ++ EvChromeStart :: steps ++ [EvChromeQuit]
       /\ Forall (fun e => is_session_boundary e = false) steps
       /\ posts steps = [].
Proof.
  intros down slow. split.
  - destruct (login_quits_browser Sample.cfg down) as (H & _).
    apply (H _ eq_refl).
  - destruct (login_quits_browser Sample.cfg slow) as (_ & H & _).
    apply H. reflexivity.
Defined.
